(** * Value estimation in the optimizer layer

    A shallow embedding of [mlagents/trainers/optimizer.py]: the abstract
    [Optimizer], and [TFOptimizer] with its reward-signal wiring, the two
    value-estimation routines and the two helpers.

    Python objects that the methods mutate or share (the optimizer [self],
    the trainer's batch, the execution session) live in an explicit state;
    every method is a computation in a state-and-exception monad, so that an
    exception leaves the mutations made before it in place, as in Python. *)

From Stdlib Require Import ZArith Lia PrimFloat.
From stdpp Require Import base list strings gmap pretty.

Set Default Proof Using "Type".
#[global] Set Warnings "-clear-no-such-hyp".
Open Scope Z_scope.

(** ** Exceptions and fallible computations *)

Inductive exn : Type :=
  | KeyError (key : string)
  | IndexError
  | TypeError
  | ValueError
  | AttributeError (attr : string)
  | RuntimeError (msg : string).

Inductive result (A : Type) : Type :=
  | Ok (a : A)
  | Raise (e : exn).
Arguments Ok {A} a.
Arguments Raise {A} e.

Definition rbind {A B} (r : result A) (f : A → result B) : result B :=
  match r with
  | Ok a => f a
  | Raise e => Raise e
  end.

Notation "x <-? r ;; k" := (rbind r (λ x, k))
  (at level 100, r at next level, right associativity,
   format "x  <-?  r  ;;  '/' k").

(** [[f(x) for x in l]] for a fallible [f]: the first exception stops it. *)
Fixpoint rmap {A B} (f : A → result B) (l : list A) : result (list B) :=
  match l with
  | [] => Ok []
  | x :: l' => y <-? f x ;; ys <-? rmap f l' ;; Ok (y :: ys)
  end.

(** A [for] loop over [l] that threads a local variable. *)
Fixpoint rfold {A B} (f : B → A → result B) (b : B) (l : list A) : result B :=
  match l with
  | [] => Ok b
  | x :: l' => b' <-? f b x ;; rfold f b' l'
  end.

(** ** Python dictionaries

    A [dict] keeps its entries in insertion order; assigning to a key that
    is present replaces the value in place, assigning to a new key appends
    the entry. *)

Section dict.
Context {K V : Type} `{EqDecision K}.

Definition dict : Type := list (K * V).

Fixpoint dict_get (k : K) (d : dict) : option V :=
  match d with
  | [] => None
  | (k', v) :: d' => if decide (k = k') then Some v else dict_get k d'
  end.

Fixpoint dict_set (k : K) (v : V) (d : dict) : dict :=
  match d with
  | [] => [(k, v)]
  | (k', v') :: d' =>
      if decide (k = k') then (k', v) :: d' else (k', v') :: dict_set k v d'
  end.

Definition dict_keys (d : dict) : list K := d.*1.
Definition dict_values (d : dict) : list V := d.*2.

(** [d.update(d2)], and [dict(pairs)]. *)
Definition dict_update (d d2 : dict) : dict :=
  foldl (λ acc kv, dict_set kv.1 kv.2 acc) d d2.
Definition dict_of_pairs (l : list (K * V)) : dict := dict_update [] l.

(** The invariant of a Python dict: no key occurs twice. *)
Definition dict_wf (d : dict) : Prop := NoDup (dict_keys d).

Definition dict_getitem (show : K → string) (k : K) (d : dict) : result V :=
  match dict_get k d with
  | Some v => Ok v
  | None => Raise (KeyError (show k))
  end.
End dict.
Arguments dict : clear implicits.

(** [{k: f(v) for k, v in d.items()}] for a fallible [f]. *)
Definition dict_comprehension {K V W} `{EqDecision K}
    (f : V → result W) (d : dict K V) : result (dict K W) :=
  rfold (λ acc kv, w <-? f kv.2 ;; Ok (dict_set kv.1 w acc)) [] d.

(** [l[i]] for [0 <= i], and [l[-1]]. *)
Definition list_getitem {A} (l : list A) (i : nat) : result A :=
  match l !! i with
  | Some x => Ok x
  | None => Raise IndexError
  end.

Definition list_last {A} (l : list A) : result A :=
  match last l with
  | Some x => Ok x
  | None => Raise IndexError
  end.

(** [range(start, stop, step)], as CPython computes its length. *)
Definition py_range (start stop step : Z) : result (list Z) :=
  if decide (step = 0) then Raise ValueError
  else
    let n :=
      if decide (0 < step)
      then (if decide (start < stop) then (stop - start - 1) / step + 1 else 0)
      else (if decide (stop < start) then (start - stop - 1) / (- step) + 1 else 0)
    in Ok (map (λ i : nat, start + Z.of_nat i * step) (seq 0 (Z.to_nat n))).

(** ** numpy arrays

    An array is its shape and its entries in row-major order. Only the three
    numpy operations the optimizer calls are modelled. *)

Record ndarray : Type := NDArray { shape : list nat; data : list float }.

(** [np.zeros((n))]: a vector of [n] zeros; a negative [n] is refused. *)
Definition np_zeros (n : Z) : result ndarray :=
  if decide (n < 0) then Raise ValueError
  else Ok (NDArray [Z.to_nat n] (replicate (Z.to_nat n) 0%float)).

(** [np.squeeze(a, axis=1)]: axis 1 has to exist and to have length one. *)
Definition np_squeeze_axis1 (a : ndarray) : result ndarray :=
  match shape a with
  | d0 :: 1%nat :: rest => Ok (NDArray (d0 :: rest) (data a))
  | _ => Raise ValueError
  end.

(** [float(a)]: only an array of a single entry converts to a scalar. *)
Definition to_float (a : ndarray) : result float :=
  match data a with
  | [x] => Ok x
  | _ => Raise TypeError
  end.

(** ** Graph handles and the execution session *)

Record tensor : Type := Tensor { tensor_name : string }.

#[global] Instance tensor_eq_dec : EqDecision tensor.
Proof. solve_decision. Defined.

(** An attribute that holds a tensor, or [None]. *)
Definition handle : Type := option tensor.

Definition show_handle (h : handle) : string :=
  match h with
  | Some t => tensor_name t
  | None => "None"
  end.

Inductive feed_value : Type :=
  | FInt (n : Z)
  | FArray (a : ndarray)
  | FList (l : list ndarray).

Definition feed_dict : Type := dict handle feed_value.

(** What [sess.run] is asked for: a tensor or a dict of tensors, alone or
    in a list; and what it gives back, of the same structure. *)
Inductive fetch : Type :=
  | FetchTensor (h : handle)
  | FetchDict (d : dict string handle).

Inductive fetches : Type :=
  | Single (f : fetch)
  | Several (fs : list fetch).

Inductive fetched : Type :=
  | GotArray (a : ndarray)
  | GotDict (d : dict string ndarray).

Inductive outputs : Type :=
  | OutSingle (o : fetched)
  | OutSeveral (os : list fetched).

Record run_record : Type := RunRecord { run_fetches : fetches; run_feed : feed_dict }.

(** The session: [graph] is the function the computation graph computes
    under the current parameters (what one tensor evaluates to under one
    feed; [update] is what changes it), [runs] the executions so far. *)
Record Session : Type := {
  graph : feed_dict → handle → result ndarray;
  runs : list run_record;
}.

Definition run_dict (g : feed_dict → handle → result ndarray)
    (fd : feed_dict) (d : dict string handle) : result (dict string ndarray) :=
  rmap (λ kv, v <-? g fd kv.2 ;; Ok (kv.1, v)) d.

Definition run_fetch (g : feed_dict → handle → result ndarray)
    (fd : feed_dict) (f : fetch) : result fetched :=
  match f with
  | FetchTensor h => a <-? g fd h ;; Ok (GotArray a)
  | FetchDict d => r <-? run_dict g fd d ;; Ok (GotDict r)
  end.

Definition run_fetches_in (g : feed_dict → handle → result ndarray)
    (fd : feed_dict) (fs : fetches) : result outputs :=
  match fs with
  | Single f => o <-? run_fetch g fd f ;; Ok (OutSingle o)
  | Several l => os <-? rmap (run_fetch g fd) l ;; Ok (OutSeveral os)
  end.

(** ** The objects the optimizer works with *)

Module Policy.
(** The attributes of [TFPolicy] that the optimizer reads. *)
Record t : Type := {
  batch_size_ph : handle;
  sequence_length_ph : handle;
  vec_obs_size : Z;
  vis_obs_size : Z;
  vector_in : handle;
  visual_in : list handle;
  use_recurrent : bool;
  memory_in : handle;
  memory_out : handle;
  m_size : Z;
  prev_action : handle;
  sequence_length : Z;
}.
End Policy.
Abbreviation TFPolicy := Policy.t.

Module RewardSignal.
Record t : Type := {
  use_terminal_states : bool;
  update_dict : dict string tensor;
}.
End RewardSignal.
Abbreviation RewardSignal := RewardSignal.t.

Record SplitObservations : Type := {
  vector_observations : ndarray;
  visual_observations : list ndarray;
}.

Record TFOptimizer : Type := {
  policy : TFPolicy;
  update_dict : dict string tensor;
  value_heads : dict string handle;
  reward_signals : dict string RewardSignal;
  memory_in : handle;
  memory_out : handle;
  m_size : Z;
}.

(** Modelled from the spec: [AgentBuffer] (mlagents/trainers/buffer.py is
    not part of the sources). The spec gives it as an ordered mapping from
    field name to a sequence of per-timestep arrays, consumed through
    indexed field access by string key and a count of experiences, a missing
    field being a failure of the call. *)
Record AgentBuffer : Type := {
  buffer_fields : dict string (list ndarray);
  num_experiences : Z;
}.

(** ** State and the method monad *)

Record world : Type := {
  w_self : TFOptimizer;
  w_batch : AgentBuffer;
  w_sess : Session;
}.

Definition ST (S A : Type) : Type := S → result A * S.

Definition ret {S A} (a : A) : ST S A := λ s, (Ok a, s).
Definition raise {S A} (e : exn) : ST S A := λ s, (Raise e, s).
Definition lift {S A} (r : result A) : ST S A := λ s, (r, s).
Definition gets {S A} (f : S → A) : ST S A := λ s, (Ok (f s), s).
Definition modify {S} (f : S → S) : ST S unit := λ s, (Ok tt, f s).
Definition bind {S A B} (m : ST S A) (k : A → ST S B) : ST S B :=
  λ s, match m s with
       | (Ok a, s') => k a s'
       | (Raise e, s') => (Raise e, s')
       end.

Notation "x <- m ;; k" := (bind m (λ x, k))
  (at level 100, m at next level, right associativity,
   format "x  <-  m  ;;  '/' k").

(** A [for] loop with a body that acts on the state. *)
Fixpoint for_each {S A} (l : list A) (body : A → ST S unit) : ST S unit :=
  match l with
  | [] => ret tt
  | x :: l' => _ <- body x ;; for_each l' body
  end.

(** A [for] loop that also threads a local variable. *)
Fixpoint fold_each {S A B} (l : list A) (b : B) (body : B → A → ST S B) : ST S B :=
  match l with
  | [] => ret b
  | x :: l' => b' <- body b x ;; fold_each l' b' body
  end.

(** [self.sess.run(fetches, feed_dict)]: one execution of the graph. *)
Definition sess_run (fs : fetches) (fd : feed_dict) : ST world outputs :=
  λ w,
    let s := w_sess w in
    (run_fetches_in (graph s) fd fs,
     {| w_self := w_self w; w_batch := w_batch w;
        w_sess := {| graph := graph s; runs := runs s ++ [RunRecord fs fd] |} |}).

(** Modelled from the spec: field access [batch[key]] of [AgentBuffer], a
    read that fails on a field the batch does not have. *)
Definition buffer_getitem (key : string) : ST world (list ndarray) :=
  λ w, (dict_getitem id key (buffer_fields (w_batch w)), w).

(** What the caller of [sess.run] takes its result to be. *)
Definition as_dict (o : outputs) : result (dict string ndarray) :=
  match o with
  | OutSingle (GotDict d) => Ok d
  | _ => Raise TypeError
  end.

Definition as_array (o : fetched) : result ndarray :=
  match o with
  | GotArray a => Ok a
  | GotDict _ => Raise TypeError
  end.

Definition as_arrays (o : outputs) : result (list ndarray) :=
  match o with
  | OutSeveral os => rmap as_array os
  | OutSingle _ => Raise TypeError
  end.

(** [a, b, c = sess.run([heads, t1, t2], ...)] *)
Definition as_heads_and_memories (o : outputs)
    : result (dict string ndarray * ndarray * ndarray) :=
  match o with
  | OutSeveral [GotDict d; GotArray a; GotArray b] => Ok (d, a, b)
  | OutSeveral [_; _; _] => Raise TypeError
  | _ => Raise ValueError
  end.

(** [trainer_params] is a [Dict[str, Any]]: the entry the optimizer reads
    has to be a mapping from signal name to configuration. *)
Inductive trainer_param (config : Type) : Type :=
  | ParamConfigs (c : dict string config)
  | ParamOther (repr : string).
Arguments ParamConfigs {config} c.
Arguments ParamOther {config} repr.

Definition set_reward_signals (rs : dict string RewardSignal)
    (self : TFOptimizer) : TFOptimizer :=
  {| policy := policy self; update_dict := update_dict self;
     value_heads := value_heads self; reward_signals := rs;
     memory_in := memory_in self; memory_out := memory_out self;
     m_size := m_size self |}.

Definition set_update_dict (ud : dict string tensor)
    (self : TFOptimizer) : TFOptimizer :=
  {| policy := policy self; update_dict := ud;
     value_heads := value_heads self; reward_signals := reward_signals self;
     memory_in := memory_in self; memory_out := memory_out self;
     m_size := m_size self |}.

(** ** The methods *)

Section optimizer.
(** Code of the library outside the optimizer module: the reward-signal
    configuration, the reward-signal factory and the splitting of an
    observation into its vector and visual parts. *)
Context {config : Type}.
Context (create_reward_signal : TFPolicy → string → config → result RewardSignal).
Context (from_observations : list ndarray → result SplitObservations).

(** [Optimizer.__init__]: abstract, its body is [pass]. *)
Definition Optimizer_init (policy_arg : option TFPolicy) : result unit := Ok tt.

(** One turn of the loop of [create_reward_signals], for the item
    [(reward_signal, config)] of the configuration. *)
Definition create_reward_signals_step (item : string * config) : ST TFOptimizer unit :=
  let reward_signal := item.1 in
  pol <- gets policy ;;
  signal <- lift (create_reward_signal pol reward_signal item.2) ;;
  _ <- modify (λ self,
         set_reward_signals (dict_set reward_signal signal (reward_signals self)) self) ;;
  stored <- (λ self, lift (dict_getitem id reward_signal (reward_signals self)) self) ;;
  modify (λ self,
    set_update_dict (dict_update (update_dict self) (RewardSignal.update_dict stored)) self).

(** [TFOptimizer.create_reward_signals], acting on [self]. *)
Definition create_reward_signals (reward_signal_configs : dict string config)
    : ST TFOptimizer unit :=
  _ <- modify (set_reward_signals []) ;;
  for_each reward_signal_configs create_reward_signals_step.

(** [TFOptimizer.__init__]. [None] stands for a missing policy object;
    the attributes are assigned in the order of the source, and an
    exception on the way leaves no optimizer behind. *)
Definition TFOptimizer_init (policy_arg : option TFPolicy)
    (trainer_params : dict string (trainer_param config)) : result TFOptimizer :=
  _ <-? Optimizer_init policy_arg ;;
  match policy_arg with
  | None => Raise (AttributeError "sess")
  | Some pol =>
      let self :=
        {| policy := pol; update_dict := []; value_heads := [];
           reward_signals := []; memory_in := None; memory_out := None;
           m_size := 0 |} in
      param <-? dict_getitem id "reward_signals" trainer_params ;;
      match param with
      | ParamOther _ => Raise (AttributeError "items")
      | ParamConfigs configs =>
          match create_reward_signals configs self with
          | (Ok _, self) =>
              Ok {| policy := policy self; update_dict := update_dict self;
                    value_heads := value_heads self;
                    reward_signals := reward_signals self;
                    memory_in := None; memory_out := None; m_size := 0 |}
          | (Raise e, _) => Raise e
          end
      end
  end.

(** The feed of [get_value_estimates]: one timestep, one batch entry. *)
Definition value_feed_dict (self : TFOptimizer) (next_obs : list ndarray)
    (policy_memory value_memory prev_action : option ndarray) : result feed_dict :=
  let pol := policy self in
  let feed : feed_dict :=
    dict_set (Policy.sequence_length_ph pol) (FInt 1)
      (dict_set (Policy.batch_size_ph pol) (FInt 1) []) in
  vec_vis_obs <-? from_observations next_obs ;;
  feed <-? rfold (λ feed i,
              obs <-? list_getitem (visual_observations vec_vis_obs) i ;;
              ph <-? list_getitem (Policy.visual_in pol) i ;;
              Ok (dict_set ph (FList [obs]) feed))
            feed (seq 0 (length (visual_observations vec_vis_obs))) ;;
  let feed :=
    if decide (0 < Policy.vec_obs_size pol)
    then dict_set (Policy.vector_in pol) (FList [vector_observations vec_vis_obs]) feed
    else feed in
  let feed :=
    match policy_memory with
    | Some m => dict_set (Policy.memory_in pol) (FArray m) feed
    | None => feed
    end in
  let feed :=
    match value_memory with
    | Some m => dict_set (memory_in self) (FArray m) feed
    | None => feed
    end in
  let feed :=
    match prev_action with
    | Some a => dict_set (Policy.prev_action pol) (FList [a]) feed
    | None => feed
    end in
  Ok feed.

(** The loop that reassigns the estimates at a terminal state. *)
Definition zero_terminal_states (signals : dict string RewardSignal)
    (value_estimates : dict string float) : result (dict string float) :=
  rfold (λ estimates k,
           signal <-? dict_getitem id k signals ;;
           if RewardSignal.use_terminal_states signal
           then Ok (dict_set k 0%float estimates)
           else Ok estimates)
        value_estimates (dict_keys value_estimates).

(** [TFOptimizer.get_value_estimates] *)
Definition get_value_estimates (next_obs : list ndarray) (done : bool)
    (policy_memory value_memory prev_action : option ndarray)
    : ST world (dict string float) :=
  self <- gets w_self ;;
  feed <- lift (value_feed_dict self next_obs policy_memory value_memory prev_action) ;;
  out <- sess_run (Single (FetchDict (value_heads self))) feed ;;
  value_estimates <- lift (as_dict out) ;;
  value_estimates <- lift (dict_comprehension to_float value_estimates) ;;
  if done
  then lift (zero_terminal_states (reward_signals self) value_estimates)
  else ret value_estimates.

(** The feed of [get_trajectory_value_estimates]: the whole batch at once. *)
Definition trajectory_feed_dict (self : TFOptimizer) : ST world feed_dict :=
  let pol := policy self in
  n <- gets (λ w, num_experiences (w_batch w)) ;;
  let feed : feed_dict :=
    dict_set (Policy.sequence_length_ph pol) (FInt n)
      (dict_set (Policy.batch_size_ph pol) (FInt n) []) in
  feed <- (if decide (0 < Policy.vec_obs_size pol)
           then obs <- buffer_getitem "vector_obs" ;;
                ret (dict_set (Policy.vector_in pol) (FList obs) feed)
           else ret feed) ;;
  feed <- (if decide (0 < Policy.vis_obs_size pol)
           then fold_each (seq 0 (length (Policy.visual_in pol))) feed (λ feed i,
                  _obs <- buffer_getitem ("visual_obs" +:+ pretty i) ;;
                  ph <- lift (list_getitem (Policy.visual_in pol) i) ;;
                  ret (dict_set ph (FList _obs) feed))
           else ret feed) ;;
  feed <- (if Policy.use_recurrent pol
           then zp <- lift (np_zeros (Policy.m_size pol)) ;;
                let feed := dict_set (Policy.memory_in pol) (FList [zp]) feed in
                zv <- lift (np_zeros (m_size self)) ;;
                ret (dict_set (memory_in self) (FList [zv]) feed)
           else ret feed) ;;
  match Policy.prev_action pol with
  | Some _ =>
      acts <- buffer_getitem "prev_action" ;;
      ret (dict_set (Policy.prev_action pol) (FList acts) feed)
  | None => ret feed
  end.

(** [TFOptimizer.get_trajectory_value_estimates]; the batch is the
    trainer's object [w_batch]. *)
Definition get_trajectory_value_estimates (next_obs : list ndarray) (done : bool)
    : ST world (dict string ndarray * dict string float) :=
  self <- gets w_self ;;
  let pol := policy self in
  feed <- trajectory_feed_dict self ;;
  run <- (if Policy.use_recurrent pol
          then out <- sess_run (Several [FetchDict (value_heads self);
                                         FetchTensor (Policy.memory_out pol);
                                         FetchTensor (memory_out self)]) feed ;;
               got <- lift (as_heads_and_memories out) ;;
               actions <- buffer_getitem "actions" ;;
               prev_action <- lift (list_last actions) ;;
               ret (got.1.1, Some got.1.2, Some got.2, Some prev_action)
          else out <- sess_run (Single (FetchDict (value_heads self))) feed ;;
               value_estimates <- lift (as_dict out) ;;
               ret (value_estimates, None, None, None)) ;;
  let '(value_estimates, policy_mem, value_mem, prev_action) := run in
  value_estimates <- lift (dict_comprehension np_squeeze_axis1 value_estimates) ;;
  final_value_estimates <-
    get_value_estimates next_obs done policy_mem value_mem prev_action ;;
  ret (value_estimates, final_value_estimates).

(** [TFOptimizer._execute_model] *)
Definition _execute_model (feed : feed_dict) (out_dict : dict string handle)
    : ST world (dict string ndarray) :=
  out <- sess_run (Several (map FetchTensor (dict_values out_dict))) feed ;;
  network_out <- lift (as_arrays out) ;;
  ret (dict_of_pairs (zip (dict_keys out_dict) network_out)).

(** [TFOptimizer._make_zero_mem] *)
Definition _make_zero_mem (m_size length : Z) : ST world (list ndarray) :=
  self <- gets w_self ;;
  steps <- lift (py_range 0 length (Policy.sequence_length (policy self))) ;;
  lift (rmap (λ _, np_zeros m_size) steps).

End optimizer.

(** ** Auxiliary definitions for the statements *)

(** A computation leaves a component [f] of the state as it found it,
    whether it returns or raises. *)
Definition frame {S X A} (f : S → X) (m : ST S A) : Prop :=
  ∀ s, f (m s).2 = f s.

(** The result of [get_value_estimates] as a function of the optimizer
    object and of the function [g] that the graph computes. *)
Definition value_estimates_of
    (from_observations : list ndarray → result SplitObservations)
    (self : TFOptimizer) (g : feed_dict → handle → result ndarray)
    (next_obs : list ndarray) (done : bool)
    (policy_memory value_memory prev_action : option ndarray)
    : result (dict string float) :=
  feed <-? value_feed_dict from_observations self next_obs
             policy_memory value_memory prev_action ;;
  raw <-? run_dict g feed (value_heads self) ;;
  floats <-? dict_comprehension to_float raw ;;
  if done then zero_terminal_states (reward_signals self) floats else Ok floats.

(** What the batch run of [get_trajectory_value_estimates] fetches. *)
Definition batch_fetches (self : TFOptimizer) : fetches :=
  if Policy.use_recurrent (policy self)
  then Several [FetchDict (value_heads self);
                FetchTensor (Policy.memory_out (policy self));
                FetchTensor (memory_out self)]
  else Single (FetchDict (value_heads self)).

(** The state once the session has made one more run. *)
Definition logged (r : run_record) (w : world) : world :=
  {| w_self := w_self w; w_batch := w_batch w;
     w_sess := {| graph := graph (w_sess w); runs := runs (w_sess w) ++ [r] |} |}.

(** What the batch run of [get_trajectory_value_estimates] hands on: the
    outputs of the value heads and the three arguments for the call of
    [get_value_estimates], as a function of the optimizer, of what the graph
    computes under the feed, and of the batch. *)
Definition batch_outputs (self : TFOptimizer) (g : feed_dict → handle → result ndarray)
    (feed : feed_dict) (batch : AgentBuffer)
    : result (dict string ndarray * option ndarray * option ndarray * option ndarray) :=
  if Policy.use_recurrent (policy self)
  then raw <-? run_dict g feed (value_heads self) ;;
       policy_mem <-? g feed (Policy.memory_out (policy self)) ;;
       value_mem <-? g feed (memory_out self) ;;
       actions <-? dict_getitem id "actions" (buffer_fields batch) ;;
       prev_action <-? list_last actions ;;
       Ok (raw, Some policy_mem, Some value_mem, Some prev_action)
  else raw <-? run_dict g feed (value_heads self) ;;
       Ok (raw, None, None, None).

(** ** A concrete setting

    Stand-ins for the parts of the library outside the optimizer module (a
    reward-signal factory, an observation splitter, a graph), three
    policies, and states built from them: the instances at which the
    statements below are evaluated. *)

Module Scenario.
Definition ph (name : string) : handle := Some (Tensor name).

(** A factory that knows three signals; only ["extrinsic"] zeroes its
    value at terminal states. *)
Definition create_reward_signal (pol : TFPolicy) (name : string) (strength : Z)
    : result RewardSignal :=
  if decide (name = "extrinsic") then
    Ok {| RewardSignal.use_terminal_states := true;
          RewardSignal.update_dict := [] |}
  else if decide (name = "curiosity") then
    Ok {| RewardSignal.use_terminal_states := false;
          RewardSignal.update_dict :=
            [("Losses/Curiosity Forward Loss", Tensor "forward_loss");
             ("Losses/Curiosity Inverse Loss", Tensor "inverse_loss")] |}
  else if decide (name = "gail") then
    Ok {| RewardSignal.use_terminal_states := false;
          RewardSignal.update_dict := [("Losses/GAIL Loss", Tensor "gail_loss")] |}
  else Raise (RuntimeError "Unknown reward signal type").

(** Arrays of one axis are vector observations, arrays of three axes are
    visual observations. *)
Definition from_observations (obs : list ndarray) : result SplitObservations :=
  let vec := filter (λ a, length (shape a) = 1%nat) obs in
  Ok {| vector_observations :=
          NDArray [length (concat (data <$> vec))] (concat (data <$> vec));
        visual_observations := filter (λ a, length (shape a) = 3%nat) obs |}.

(** A graph with two value heads and two memory outputs. A value head
    gives one row per batch entry; what it gives depends on whether the
    previous action is fed. *)
Definition sample_graph (feed : feed_dict) (h : handle) : result ndarray :=
  match h, dict_get (ph "batch_size") feed with
  | Some t, Some (FInt n) =>
      let rows := Z.to_nat n in
      let x := match dict_get (ph "prev_action") feed with
               | Some _ => 2%float
               | None => 0.5%float
               end in
      if decide (t = Tensor "extrinsic_value") then Ok (NDArray [rows; 1%nat] (replicate rows x))
      else if decide (t = Tensor "curiosity_value") then Ok (NDArray [rows; 1%nat] (replicate rows x))
      else if decide (t = Tensor "recurrent_out") then Ok (NDArray [1%nat; 2%nat] [1%float; 1%float])
      else if decide (t = Tensor "value_memory_out") then Ok (NDArray [1%nat; 2%nat] [3%float; 3%float])
      else Raise (RuntimeError "not in the graph")
  | _, _ => Raise TypeError
  end.

Definition plain_policy : TFPolicy :=
  {| Policy.batch_size_ph := ph "batch_size";
     Policy.sequence_length_ph := ph "sequence_length";
     Policy.vec_obs_size := 4; Policy.vis_obs_size := 0;
     Policy.vector_in := ph "vector_observation"; Policy.visual_in := [];
     Policy.use_recurrent := false;
     Policy.memory_in := None; Policy.memory_out := None; Policy.m_size := 0;
     Policy.prev_action := None; Policy.sequence_length := 8 |}.

(** Not recurrent, with a placeholder for the previous action. *)
Definition discrete_policy : TFPolicy :=
  {| Policy.batch_size_ph := ph "batch_size";
     Policy.sequence_length_ph := ph "sequence_length";
     Policy.vec_obs_size := 4; Policy.vis_obs_size := 0;
     Policy.vector_in := ph "vector_observation"; Policy.visual_in := [];
     Policy.use_recurrent := false;
     Policy.memory_in := None; Policy.memory_out := None; Policy.m_size := 0;
     Policy.prev_action := ph "prev_action"; Policy.sequence_length := 8 |}.

Definition recurrent_policy : TFPolicy :=
  {| Policy.batch_size_ph := ph "batch_size";
     Policy.sequence_length_ph := ph "sequence_length";
     Policy.vec_obs_size := 4; Policy.vis_obs_size := 0;
     Policy.vector_in := ph "vector_observation"; Policy.visual_in := [];
     Policy.use_recurrent := true;
     Policy.memory_in := ph "recurrent_in"; Policy.memory_out := ph "recurrent_out";
     Policy.m_size := 2;
     Policy.prev_action := ph "prev_action"; Policy.sequence_length := 8 |}.

Definition trainer_params (names : list string) : dict string (trainer_param Z) :=
  [("batch_size", ParamOther "1024");
   ("reward_signals", ParamConfigs ((λ name, (name, 1)) <$> names))].

Definition extrinsic_signal : RewardSignal :=
  {| RewardSignal.use_terminal_states := true; RewardSignal.update_dict := [] |}.
Definition curiosity_signal : RewardSignal :=
  {| RewardSignal.use_terminal_states := false;
     RewardSignal.update_dict :=
       [("Losses/Curiosity Forward Loss", Tensor "forward_loss");
        ("Losses/Curiosity Inverse Loss", Tensor "inverse_loss")] |}.

(** The optimizer that [TFOptimizer.__init__] leaves for the signals
    ["extrinsic"] and ["curiosity"]: no value heads yet. *)
Definition constructed (pol : TFPolicy) : TFOptimizer :=
  {| policy := pol;
     update_dict := RewardSignal.update_dict curiosity_signal;
     value_heads := [];
     reward_signals := [("extrinsic", extrinsic_signal); ("curiosity", curiosity_signal)];
     memory_in := None; memory_out := None; m_size := 0 |}.

(** The same with one value head per signal and the memory tensors of
    the value network, as a concrete optimizer sets them. *)
Definition optimizer (pol : TFPolicy) : TFOptimizer :=
  {| policy := pol;
     update_dict := RewardSignal.update_dict curiosity_signal;
     value_heads := [("extrinsic", ph "extrinsic_value");
                     ("curiosity", ph "curiosity_value")];
     reward_signals := [("extrinsic", extrinsic_signal); ("curiosity", curiosity_signal)];
     memory_in := ph "value_memory_in"; memory_out := ph "value_memory_out";
     m_size := 2 |}.

(** An optimizer with a value head for ["extrinsic"] only. *)
Definition one_head_optimizer (pol : TFPolicy) : TFOptimizer :=
  {| policy := pol;
     update_dict := RewardSignal.update_dict curiosity_signal;
     value_heads := [("extrinsic", ph "extrinsic_value")];
     reward_signals := [("extrinsic", extrinsic_signal); ("curiosity", curiosity_signal)];
     memory_in := None; memory_out := None; m_size := 0 |}.

Definition observation : ndarray :=
  NDArray [4%nat] [1%float; 2%float; 3%float; 4%float].
Definition action : ndarray := NDArray [1%nat] [1%float].

(** A batch of ten timesteps. *)
Definition batch : AgentBuffer :=
  {| buffer_fields :=
       [("vector_obs", replicate 10 observation);
        ("prev_action", replicate 10 action);
        ("actions", replicate 10 action)];
     num_experiences := 10 |}.

Definition empty_batch : AgentBuffer :=
  {| buffer_fields := []; num_experiences := 0 |}.

Definition session : Session := {| graph := sample_graph; runs := [] |}.

Definition state (self : TFOptimizer) (b : AgentBuffer) : world :=
  {| w_self := self; w_batch := b; w_sess := session |}.

(** A session that has made a run already. *)
Definition used_session : Session :=
  {| graph := sample_graph;
     runs := [RunRecord (Single (FetchTensor (ph "recurrent_out")))
                [(ph "batch_size", FInt 1)]] |}.

(** A visual observation: an array of three axes. *)
Definition image : ndarray := NDArray [1%nat; 1%nat; 1%nat] [1%float].

(** An optimizer whose only value head is a tensor of two entries. *)
Definition wide_head_optimizer (pol : TFPolicy) : TFOptimizer :=
  {| policy := pol;
     update_dict := RewardSignal.update_dict curiosity_signal;
     value_heads := [("extrinsic", ph "recurrent_out")];
     reward_signals := [("extrinsic", extrinsic_signal); ("curiosity", curiosity_signal)];
     memory_in := ph "value_memory_in"; memory_out := ph "value_memory_out";
     m_size := 2 |}.

(** An optimizer with two value heads and ["extrinsic"] alone registered. *)
Definition unregistered_head_optimizer (pol : TFPolicy) : TFOptimizer :=
  {| policy := pol;
     update_dict := [];
     value_heads := [("extrinsic", ph "extrinsic_value");
                     ("curiosity", ph "curiosity_value")];
     reward_signals := [("extrinsic", extrinsic_signal)];
     memory_in := ph "value_memory_in"; memory_out := ph "value_memory_out";
     m_size := 2 |}.

(** A batch whose field ["actions"] is empty. *)
Definition batch_without_actions : AgentBuffer :=
  {| buffer_fields :=
       [("vector_obs", replicate 10 observation);
        ("prev_action", replicate 10 action);
        ("actions", [])];
     num_experiences := 10 |}.

(** The feeds that the estimation routines build in these states. *)
Definition bootstrap_feed : feed_dict :=
  [(ph "batch_size", FInt 1); (ph "sequence_length", FInt 1);
   (ph "vector_observation", FList [observation])].

Definition batch_feed : feed_dict :=
  [(ph "batch_size", FInt 10); (ph "sequence_length", FInt 10);
   (ph "vector_observation", FList (replicate 10 observation))].

Definition recurrent_batch_feed : feed_dict :=
  [(ph "batch_size", FInt 10); (ph "sequence_length", FInt 10);
   (ph "vector_observation", FList (replicate 10 observation));
   (ph "recurrent_in", FList [NDArray [2%nat] [0%float; 0%float]]);
   (ph "value_memory_in", FList [NDArray [2%nat] [0%float; 0%float]]);
   (ph "prev_action", FList (replicate 10 action))].

(** A policy with a negative memory size. *)
Definition broken_recurrent_policy : TFPolicy :=
  {| Policy.batch_size_ph := ph "batch_size";
     Policy.sequence_length_ph := ph "sequence_length";
     Policy.vec_obs_size := 4; Policy.vis_obs_size := 0;
     Policy.vector_in := ph "vector_observation"; Policy.visual_in := [];
     Policy.use_recurrent := true;
     Policy.memory_in := ph "recurrent_in"; Policy.memory_out := ph "recurrent_out";
     Policy.m_size := -1;
     Policy.prev_action := ph "prev_action"; Policy.sequence_length := 8 |}.
End Scenario.

(** * Properties *)

(** ** Fallible maps and folds *)

Lemma rmap_Ok_Forall2 {A B} (f : A → result B) (l : list A) (l' : list B) :
  rmap f l = Ok l' ↔ Forall2 (λ x y, f x = Ok y) l l'.
Proof.
  revert l'. induction l as [|x l IH]; intros l'; simpl.
  - split; [intros [= <-]; constructor | by inversion 1].
  - destruct (f x) as [y|e] eqn:Hfx; simpl.
    + destruct (rmap f l) as [ys|e] eqn:Hl; simpl.
      * split.
        -- intros [= <-]. constructor; [done | by apply IH].
        -- inversion 1 as [|? y' ? ys' Hy Hys]; subst.
           apply IH in Hys. congruence.
      * split; [done|].
        inversion 1 as [|? y' ? ys' Hy Hys]; subst. by apply IH in Hys.
    + split; [done|]. inversion 1; congruence.
Qed.

Lemma rmap_map {A B C} (f : B → result C) (g : A → B) (l : list A) :
  rmap f (map g l) = rmap (λ x, f (g x)) l.
Proof. induction l as [|x l IH]; simpl; [done|]. by rewrite IH. Qed.

Lemma rmap_length {A B} (f : A → result B) l l' :
  rmap f l = Ok l' → length l' = length l.
Proof. intros H%rmap_Ok_Forall2. symmetry. by eapply Forall2_length. Qed.

(** ** Dictionaries *)

Section dict_facts.
Context {K V : Type} `{EqDecision K}.
Implicit Types (d : dict K V) (k : K) (v : V).

Lemma dict_get_set_eq k v d : dict_get k (dict_set k v d) = Some v.
Proof.
  induction d as [|[k' v'] d IH]; simpl.
  - by rewrite decide_True.
  - destruct (decide (k = k')) as [->|Hne]; simpl.
    + by rewrite decide_True.
    + by rewrite decide_False.
Qed.

Lemma dict_get_set_ne k k' v d :
  k ≠ k' → dict_get k (dict_set k' v d) = dict_get k d.
Proof.
  intros Hne. induction d as [|[k0 v0] d IH]; simpl.
  - by rewrite decide_False.
  - destruct (decide (k' = k0)) as [->|Hne0]; simpl.
    + by rewrite !decide_False.
    + destruct (decide (k = k0)); [done | apply IH].
Qed.

Lemma dict_get_Some_keys k d : is_Some (dict_get k d) ↔ k ∈ dict_keys d.
Proof.
  unfold dict_keys. induction d as [|[k' v'] d IH]; simpl.
  - split; [by intros [? ?] | by intros ?%elem_of_nil].
  - destruct (decide (k = k')) as [->|Hne].
    + split; [intros _; left | by eauto].
    + rewrite IH, elem_of_cons. naive_solver.
Qed.

Lemma dict_get_None_keys k d : dict_get k d = None ↔ k ∉ dict_keys d.
Proof. rewrite <- dict_get_Some_keys, eq_None_not_Some. done. Qed.

Lemma dict_keys_set_in k v d :
  k ∈ dict_keys d → dict_keys (dict_set k v d) = dict_keys d.
Proof.
  unfold dict_keys. induction d as [|[k' v'] d IH]; simpl.
  - by intros ?%elem_of_nil.
  - intros Hin. destruct (decide (k = k')) as [->|Hne]; simpl; [done|].
    f_equal. apply IH. apply elem_of_cons in Hin. naive_solver.
Qed.

Lemma dict_set_notin k v d :
  k ∉ dict_keys d → dict_set k v d = d ++ [(k, v)].
Proof.
  unfold dict_keys. induction d as [|[k' v'] d IH]; simpl; [done|].
  intros Hnin. apply not_elem_of_cons in Hnin as [Hne Hnin].
  rewrite decide_False by done. f_equal. by apply IH.
Qed.

Lemma dict_keys_set_mono k k' v d :
  k ∈ dict_keys d → k ∈ dict_keys (dict_set k' v d).
Proof.
  intros Hin. destruct (decide (k' ∈ dict_keys d)) as [Hin'|Hnin].
  - by rewrite dict_keys_set_in.
  - rewrite dict_set_notin by done. unfold dict_keys in *.
    rewrite fmap_app. apply elem_of_app. by left.
Qed.

(** Entries with fresh, pairwise distinct keys are appended in order. *)
Lemma dict_update_fresh d (l : list (K * V)) :
  NoDup (dict_keys d ++ l.*1) → dict_update d l = d ++ l.
Proof.
  unfold dict_update. revert d. induction l as [|[k v] l IH]; intros d Hnd; simpl.
  - by rewrite app_nil_r.
  - simpl in Hnd. assert (k ∉ dict_keys d) as Hfresh.
    { apply NoDup_app in Hnd as (_ & Hdisj & _).
      intros Hin. apply (Hdisj k Hin). left. }
    rewrite dict_set_notin by done. rewrite IH.
    + by rewrite <- app_assoc.
    + unfold dict_keys in *. rewrite fmap_app. simpl.
      by rewrite <- app_assoc.
Qed.

Lemma dict_of_pairs_wf (l : list (K * V)) :
  NoDup l.*1 → dict_of_pairs l = l.
Proof. intros Hnd. unfold dict_of_pairs. by rewrite dict_update_fresh. Qed.

Lemma dict_update_keys_mono k d (d2 : dict K V) :
  k ∈ dict_keys d → k ∈ dict_keys (dict_update d d2).
Proof.
  unfold dict_update. revert d. induction d2 as [|[k' v'] d2 IH]; intros d Hin; simpl.
  - done.
  - apply IH. by apply dict_keys_set_mono.
Qed.

Lemma dict_update_get_other k d (d2 : dict K V) :
  k ∉ dict_keys d2 → dict_get k (dict_update d d2) = dict_get k d.
Proof.
  unfold dict_update, dict_keys. revert d.
  induction d2 as [|[k' v'] d2 IH]; intros d Hnin; simpl; [done|].
  simpl in Hnin. apply not_elem_of_cons in Hnin as [Hne Hnin].
  rewrite IH by done. by apply dict_get_set_ne.
Qed.

Lemma dict_get_lookup_wf k v d :
  (k, v) ∈ d → dict_wf d → dict_get k d = Some v.
Proof.
  unfold dict_wf, dict_keys. induction d as [|[k' v'] d IH]; simpl.
  - by intros ?%elem_of_nil.
  - intros Hin Hnd. apply NoDup_cons in Hnd as [Hfresh Hnd].
    apply elem_of_cons in Hin as [[= <- <-]|Hin].
    + by rewrite decide_True.
    + rewrite decide_False; [by apply IH|].
      intros ->. apply Hfresh. apply list_elem_of_fmap. by exists (k', v).
Qed.

Lemma dict_get_elem_of k v d : dict_get k d = Some v → (k, v) ∈ d.
Proof.
  induction d as [|[k' v'] d IH]; simpl; [done|].
  destruct (decide (k = k')) as [->|Hne].
  - intros [= ->]. left.
  - intros Hget. right. by apply IH.
Qed.
End dict_facts.

(** ** Reasoning about computations *)

Lemma rbind_Ok {A B} (r : result A) (f : A → result B) b :
  rbind r f = Ok b ↔ ∃ a, r = Ok a ∧ f a = Ok b.
Proof. destruct r; simpl; naive_solver. Qed.

Lemma bind_Ok {S A B} (m : ST S A) (k : A → ST S B) s b s' :
  bind m k s = (Ok b, s') ↔ ∃ a s1, m s = (Ok a, s1) ∧ k a s1 = (Ok b, s').
Proof. unfold bind. destruct (m s) as [[a|e] s1]; naive_solver. Qed.

Lemma lift_Ok {S A} (r : result A) (s s' : S) a :
  lift r s = (Ok a, s') ↔ r = Ok a ∧ s' = s.
Proof. unfold lift. naive_solver. Qed.

Lemma gets_Ok {S A} (f : S → A) (s s' : S) a :
  gets f s = (Ok a, s') ↔ a = f s ∧ s' = s.
Proof. unfold gets. naive_solver. Qed.

Lemma ret_Ok {S A} (x : A) (s s' : S) a :
  ret x s = (Ok a, s') ↔ a = x ∧ s' = s.
Proof. unfold ret. naive_solver. Qed.

(** Takes a successful run apart, one bind at a time. *)
Ltac st_inv H :=
  repeat match type of H with
  | bind _ _ _ = (Ok _, _) =>
      let a := fresh "a" in let s := fresh "s" in
      let H1 := fresh "Hrun" in
      apply bind_Ok in H as (a & s & H1 & H); st_inv H1
  | lift _ _ = (Ok _, _) => apply lift_Ok in H as [H ->]
  | gets _ _ = (Ok _, _) => apply gets_Ok in H as [-> ->]
  | ret _ _ = (Ok _, _) => apply ret_Ok in H as [-> ->]
  end.

Section frame.
Context {S X : Type} (f : S → X).

Lemma frame_ret {A} (a : A) : frame f (ret a).
Proof. done. Qed.
Lemma frame_raise {A} e : frame f (raise (A:=A) e).
Proof. done. Qed.
Lemma frame_lift {A} (r : result A) : frame f (lift r).
Proof. done. Qed.
Lemma frame_gets {A} (g : S → A) : frame f (gets g).
Proof. done. Qed.

Lemma frame_bind {A B} (m : ST S A) (k : A → ST S B) :
  frame f m → (∀ a, frame f (k a)) → frame f (bind m k).
Proof.
  intros Hm Hk s. unfold bind. specialize (Hm s).
  destruct (m s) as [[a|e] s1]; simpl in *; [|done].
  by rewrite Hk.
Qed.

Lemma frame_for_each {A} (l : list A) (body : A → ST S unit) :
  (∀ x, frame f (body x)) → frame f (for_each l body).
Proof.
  intros Hbody. induction l as [|x l IH]; simpl.
  - apply frame_ret.
  - apply frame_bind; [apply Hbody | by intros _].
Qed.

Lemma frame_fold_each {A B} (l : list A) (b : B) (body : B → A → ST S B) :
  (∀ b x, frame f (body b x)) → frame f (fold_each l b body).
Proof.
  intros Hbody. revert b. induction l as [|x l IH]; intros b; simpl.
  - apply frame_ret.
  - apply frame_bind; [apply Hbody | intros b'; apply IH].
Qed.
End frame.

Lemma frame_buffer_getitem {X} (f : world → X) key : frame f (buffer_getitem key).
Proof. done. Qed.

(** An execution of the graph changes the session's record of runs only. *)
Lemma frame_sess_run_self fs fd : frame w_self (sess_run fs fd).
Proof. done. Qed.
Lemma frame_sess_run_batch fs fd : frame w_batch (sess_run fs fd).
Proof. done. Qed.
Lemma frame_sess_run_graph fs fd : frame (λ w, graph (w_sess w)) (sess_run fs fd).
Proof. done. Qed.

Create HintDb frame discriminated.
#[export] Hint Resolve frame_ret frame_raise frame_lift frame_gets
  frame_buffer_getitem frame_sess_run_self frame_sess_run_batch
  frame_sess_run_graph : frame.

Ltac frame_solver :=
  repeat first
    [ progress eauto with frame
    | apply frame_bind; [|intros ?]
    | apply frame_fold_each; intros ? ?
    | apply frame_for_each; intros ?
    | match goal with
      | |- frame _ (if ?b then _ else _) => destruct b
      | |- frame _ (match ?x with _ => _ end) => destruct x
      end ].

Lemma sess_run_Ok fs fd w o w' :
  sess_run fs fd w = (Ok o, w') →
  run_fetches_in (graph (w_sess w)) fd fs = Ok o ∧
  w_self w' = w_self w ∧ w_batch w' = w_batch w ∧
  graph (w_sess w') = graph (w_sess w) ∧
  runs (w_sess w') = runs (w_sess w) ++ [RunRecord fs fd].
Proof. unfold sess_run. intros [= Hrun <-]. by simpl. Qed.

Lemma run_dict_Ok g fd (d : dict string handle) r :
  run_dict g fd d = Ok r ↔
  Forall2 (λ kt kv, kt.1 = kv.1 ∧ g fd kt.2 = Ok kv.2) d r.
Proof.
  unfold run_dict. etrans; [apply rmap_Ok_Forall2|].
  split; intros Hall; eapply Forall2_impl; [exact Hall| |exact Hall|];
    intros [k t] [k' v]; simpl; destruct (g fd t); simpl; naive_solver.
Qed.

Lemma Forall2_keys {V W} (P : V → W → Prop) (d : dict string V) (r : dict string W) :
  Forall2 (λ kt kv, kt.1 = kv.1 ∧ P kt.2 kv.2) d r → dict_keys r = dict_keys d.
Proof.
  unfold dict_keys. induction 1 as [|[k t] [k' v] d r [Hk _] _ IH]; [done|].
  rewrite !fmap_cons. simpl in Hk. by f_equal.
Qed.

Lemma Forall2_dict_get {V W} (P : V → W → Prop) (d : dict string V) (r : dict string W) k t :
  Forall2 (λ kt kv, kt.1 = kv.1 ∧ P kt.2 kv.2) d r →
  dict_get k d = Some t → ∃ v, dict_get k r = Some v ∧ P t v.
Proof.
  induction 1 as [|[k0 t0] [k' v] d r [Hk HP] _ IH]; simpl in *; [done|].
  subst k0. destruct (decide (k = k')) as [->|Hne]; [|done].
  intros [= ->]. eauto.
Qed.

Section execute_model.
Implicit Types (feed : feed_dict) (out_dict : dict string handle).

(** C9. [_execute_model(feed_dict, out_dict)], when the execution
    succeeds, returns a dict with the keys of [out_dict] in the order of
    [out_dict], each key with the value its tensor in [out_dict] evaluates
    to under [feed_dict], and the graph has been executed exactly once,
    for the list of the tensors of [out_dict] under [feed_dict]. *)
Theorem execute_model_keys_values (feed : feed_dict) (out_dict : dict string handle)
    (w w' : world) (run_out : dict string ndarray) :
  dict_wf out_dict →
  _execute_model feed out_dict w = (Ok run_out, w') →
  dict_keys run_out = dict_keys out_dict
  ∧ Forall2 (λ kt kv, kt.1 = kv.1 ∧ graph (w_sess w) feed kt.2 = Ok kv.2)
      out_dict run_out
  ∧ (∀ k t, dict_get k out_dict = Some t →
       ∃ v, dict_get k run_out = Some v ∧ graph (w_sess w) feed t = Ok v)
  ∧ runs (w_sess w') =
      runs (w_sess w) ++ [RunRecord (Several (map FetchTensor (dict_values out_dict))) feed]
  ∧ graph (w_sess w') = graph (w_sess w).
Proof.
  intros Hwf Hrun. unfold _execute_model in Hrun. st_inv Hrun.
  apply sess_run_Ok in Hrun0 as (Hout & _ & _ & Hgraph & Hruns).
  simpl in Hout. apply rbind_Ok in Hout as (os & Hos & [= <-]).
  simpl in Hrun1. rewrite rmap_map in Hos. simpl in Hos.
  assert (Forall2 (λ h v, graph (w_sess w) feed h = Ok v)
            (dict_values out_dict) a0) as Hvals.
  { apply rmap_Ok_Forall2 in Hos, Hrun1. clear -Hos Hrun1.
    revert a0 Hrun1. induction Hos as [|h o hs os Ho _ IH]; intros vs Hvs.
    - inversion Hvs. constructor.
    - inversion Hvs as [|? v ? vs' Hv Hvs']; subst. constructor; [|by apply IH].
      apply rbind_Ok in Ho as (x & Hx & [= <-]). simpl in Hv. congruence. }
  assert (Forall2 (λ kt kv, kt.1 = kv.1 ∧ graph (w_sess w) feed kt.2 = Ok kv.2)
            out_dict (zip (dict_keys out_dict) a0)) as Hall.
  { clear -Hvals. unfold dict_keys, dict_values in *.
    revert a0 Hvals. induction out_dict as [|[k t] d IH]; intros vs Hvs; simpl in *.
    - constructor.
    - inversion Hvs; subst. simpl. constructor; [done | by apply IH]. }
  rewrite dict_of_pairs_wf.
  2:{ apply (Forall2_keys (λ t v, graph (w_sess w) feed t = Ok v)) in Hall.
      unfold dict_wf, dict_keys in *. by rewrite Hall. }
  split_and!; try done.
  - by apply (Forall2_keys (λ t v, graph (w_sess w) feed t = Ok v)).
  - intros k t Hget.
    by apply (Forall2_dict_get (λ t v, graph (w_sess w) feed t = Ok v) _ _ _ _ Hall).
Qed.
End execute_model.

(** ** Comprehensions and the terminal-state loop *)

Section dict_more.
Context {K V : Type} `{EqDecision K}.
Implicit Types (d : dict K V) (k : K) (v : V).

Lemma dict_keys_set_elem k k' v d :
  k ∈ dict_keys (dict_set k' v d) ↔ k = k' ∨ k ∈ dict_keys d.
Proof.
  destruct (decide (k' ∈ dict_keys d)) as [Hin|Hnin].
  - rewrite dict_keys_set_in by done. naive_solver.
  - rewrite dict_set_notin by done. unfold dict_keys.
    rewrite fmap_app, elem_of_app. simpl. rewrite list_elem_of_singleton.
    naive_solver.
Qed.
End dict_more.

Section comprehension.
Context {V W : Type} (f : V → result W).

Lemma comprehension_fold_wf (d : dict string V) (acc r : dict string W) :
  NoDup (dict_keys acc ++ dict_keys d) →
  rfold (λ acc kv, w <-? f kv.2 ;; Ok (dict_set kv.1 w acc)) acc d = Ok r →
  ∃ r', r = acc ++ r' ∧ Forall2 (λ kv kw, kv.1 = kw.1 ∧ f kv.2 = Ok kw.2) d r'.
Proof.
  revert acc. induction d as [|[k v] d IH]; intros acc Hnd; simpl.
  - intros [= <-]. exists []. by rewrite app_nil_r.
  - intros (acc' & Hbody & Hrest)%rbind_Ok.
    apply rbind_Ok in Hbody as (w & Hw & [= <-]). simpl in Hrest.
    assert (k ∉ dict_keys acc) as Hfresh.
    { unfold dict_keys in *. simpl in Hnd.
      apply NoDup_app in Hnd as (_ & Hdisj & _).
      intros Hin. apply (Hdisj k Hin). left. }
    rewrite dict_set_notin in Hrest by done.
    apply IH in Hrest as (r' & -> & Hall).
    + exists ((k, w) :: r'). split; [by rewrite <- app_assoc|].
      by constructor.
    + unfold dict_keys in *. rewrite fmap_app. simpl in *.
      by rewrite <- app_assoc.
Qed.

(** On a well-formed dict the comprehension maps the entries one by one. *)
Lemma dict_comprehension_wf (d : dict string V) (r : dict string W) :
  dict_wf d → dict_comprehension f d = Ok r →
  Forall2 (λ kv kw, kv.1 = kw.1 ∧ f kv.2 = Ok kw.2) d r.
Proof.
  intros Hwf Hr. apply comprehension_fold_wf in Hr as (r' & -> & Hall); done.
Qed.

Lemma comprehension_fold_keys (d : dict string V) (acc r : dict string W) k :
  rfold (λ acc kv, w <-? f kv.2 ;; Ok (dict_set kv.1 w acc)) acc d = Ok r →
  k ∈ dict_keys r ↔ k ∈ dict_keys acc ∨ k ∈ dict_keys d.
Proof.
  revert acc. induction d as [|[k' v] d IH]; intros acc; simpl.
  - intros [= <-]. unfold dict_keys. simpl. rewrite elem_of_nil. naive_solver.
  - intros (acc' & Hbody & Hrest)%rbind_Ok.
    apply rbind_Ok in Hbody as (w & Hw & [= <-]). simpl in Hrest.
    rewrite (IH _ Hrest), dict_keys_set_elem.
    unfold dict_keys. simpl. rewrite elem_of_cons. naive_solver.
Qed.

Lemma dict_comprehension_keys (d : dict string V) (r : dict string W) k :
  dict_comprehension f d = Ok r → k ∈ dict_keys r ↔ k ∈ dict_keys d.
Proof.
  intros Hr. rewrite (comprehension_fold_keys _ _ _ _ Hr).
  unfold dict_keys. simpl. rewrite elem_of_nil. naive_solver.
Qed.
End comprehension.

Section zero_terminal.
Context (signals : dict string RewardSignal).

Let body : dict string float → string → result (dict string float) :=
  λ estimates k,
    signal <-? dict_getitem id k signals ;;
    if RewardSignal.use_terminal_states signal
    then Ok (dict_set k 0%float estimates)
    else Ok estimates.

Lemma zero_body_Ok est k est' :
  body est k = Ok est' →
  ∃ s, dict_get k signals = Some s ∧
       est' = if RewardSignal.use_terminal_states s then dict_set k 0%float est else est.
Proof.
  unfold body, dict_getitem. destruct (dict_get k signals) as [s|]; simpl; [|done].
  intros Hb. exists s. split; [done|].
  destruct (RewardSignal.use_terminal_states s); by injection Hb as <-.
Qed.

(** A zero already assigned stays. *)
Lemma zero_loop_sticky ks est est' k :
  rfold body est ks = Ok est' →
  dict_get k est = Some 0%float → dict_get k est' = Some 0%float.
Proof.
  revert est. induction ks as [|k0 ks IH]; intros est; simpl.
  - by intros [= <-].
  - intros (est1 & Hb & Hrest)%rbind_Ok Hzero.
    apply zero_body_Ok in Hb as (s & Hs & ->).
    apply (IH _ Hrest). destruct (RewardSignal.use_terminal_states s); [|done].
    destruct (decide (k = k0)) as [->|Hne].
    + apply dict_get_set_eq.
    + by rewrite dict_get_set_ne.
Qed.

Lemma zero_loop_zeroed ks est est' k s :
  rfold body est ks = Ok est' →
  k ∈ ks → dict_get k signals = Some s →
  RewardSignal.use_terminal_states s = true →
  dict_get k est' = Some 0%float.
Proof.
  revert est. induction ks as [|k0 ks IH]; intros est; simpl.
  - by intros _ ?%elem_of_nil.
  - intros (est1 & Hb & Hrest)%rbind_Ok Hin Hs Huse.
    apply zero_body_Ok in Hb as (s0 & Hs0 & ->).
    destruct (decide (k = k0)) as [->|Hne].
    + apply (zero_loop_sticky _ _ _ _ Hrest).
      rewrite Hs in Hs0. injection Hs0 as <-. rewrite Huse.
      apply dict_get_set_eq.
    + apply elem_of_cons in Hin as [?|Hin]; [done|]. by eapply IH.
Qed.

Lemma zero_loop_kept ks est est' k :
  rfold body est ks = Ok est' →
  (k ∉ ks ∨ ∃ s, dict_get k signals = Some s ∧
                 RewardSignal.use_terminal_states s = false) →
  dict_get k est' = dict_get k est.
Proof.
  revert est. induction ks as [|k0 ks IH]; intros est; simpl.
  - by intros [= <-].
  - intros (est1 & Hb & Hrest)%rbind_Ok Hk.
    apply zero_body_Ok in Hb as (s0 & Hs0 & ->).
    rewrite (IH _ Hrest).
    + destruct (RewardSignal.use_terminal_states s0) eqn:Huse0; [|done].
      apply dict_get_set_ne. intros ->.
      destruct Hk as [Hnin|(s & Hs & Huse)].
      * apply Hnin. left.
      * congruence.
    + destruct Hk as [Hnin|?]; [left|by right].
      intros Hin. apply Hnin. by right.
Qed.

Lemma zero_loop_keys ks est est' :
  rfold body est ks = Ok est' →
  (∀ k, k ∈ ks → k ∈ dict_keys est) → dict_keys est' = dict_keys est.
Proof.
  revert est. induction ks as [|k0 ks IH]; intros est; simpl.
  - by intros [= <-].
  - intros (est1 & Hb & Hrest)%rbind_Ok Hks.
    apply zero_body_Ok in Hb as (s0 & Hs0 & ->).
    assert (k0 ∈ dict_keys est) as Hk0 by (apply Hks; left).
    rewrite (IH _ Hrest).
    + destruct (RewardSignal.use_terminal_states s0); [|done].
      by apply dict_keys_set_in.
    + intros k Hin. destruct (RewardSignal.use_terminal_states s0).
      * rewrite dict_keys_set_in by done. apply Hks. by right.
      * apply Hks. by right.
Qed.

Lemma zero_loop_registered ks est est' k :
  rfold body est ks = Ok est' → k ∈ ks → is_Some (dict_get k signals).
Proof.
  revert est. induction ks as [|k0 ks IH]; intros est; simpl.
  - by intros _ ?%elem_of_nil.
  - intros (est1 & Hb & Hrest)%rbind_Ok Hin.
    apply zero_body_Ok in Hb as (s0 & Hs0 & ->).
    apply elem_of_cons in Hin as [->|Hin]; [by eauto | by eapply IH].
Qed.
End zero_terminal.

(** ** Bootstrap value estimation *)

Section value_estimates.
Context (from_observations : list ndarray → result SplitObservations).

(** What [get_value_estimates] returns is a function of the optimizer
    object and of what the graph computes, and of nothing else in the state. *)
Lemma get_value_estimates_result next_obs done pm vm pa w :
  (get_value_estimates from_observations next_obs done pm vm pa w).1 =
  value_estimates_of from_observations (w_self w) (graph (w_sess w)) next_obs done pm vm pa.
Proof.
  unfold get_value_estimates, value_estimates_of, bind, gets, lift, ret, sess_run.
  simpl. destruct (value_feed_dict _ _ _ _ _ _) as [feed|e]; simpl; [|done].
  destruct (run_dict _ _ _) as [raw|e]; simpl; [|done].
  destruct (dict_comprehension _ _) as [floats|e]; simpl; [|done].
  by destruct done.
Qed.

Lemma get_value_estimates_frame_self next_obs done pm vm pa :
  frame w_self (get_value_estimates from_observations next_obs done pm vm pa).
Proof. unfold get_value_estimates. frame_solver. Qed.

Lemma get_value_estimates_frame_batch next_obs done pm vm pa :
  frame w_batch (get_value_estimates from_observations next_obs done pm vm pa).
Proof. unfold get_value_estimates. frame_solver. Qed.

Lemma get_value_estimates_frame_graph next_obs done pm vm pa :
  frame (λ w, graph (w_sess w)) (get_value_estimates from_observations next_obs done pm vm pa).
Proof. unfold get_value_estimates. frame_solver. Qed.

(** The state after the call does not depend on [done]. *)
Lemma get_value_estimates_state next_obs done pm vm pa w :
  (get_value_estimates from_observations next_obs done pm vm pa w).2 =
  (get_value_estimates from_observations next_obs false pm vm pa w).2.
Proof.
  unfold get_value_estimates, bind, gets, lift, ret, sess_run. simpl.
  destruct (value_feed_dict _ _ _ _ _ _) as [feed|e]; simpl; [|done].
  destruct (run_dict _ _ _) as [raw|e]; simpl; [|done].
  destruct (dict_comprehension _ _) as [floats|e]; simpl; [|done].
  by destruct done.
Qed.

Lemma value_estimates_of_Ok self g next_obs done pm vm pa est :
  value_estimates_of from_observations self g next_obs done pm vm pa = Ok est →
  ∃ feed raw floats,
    value_feed_dict from_observations self next_obs pm vm pa = Ok feed ∧
    run_dict g feed (value_heads self) = Ok raw ∧
    dict_comprehension to_float raw = Ok floats ∧
    (if done then zero_terminal_states (reward_signals self) floats = Ok est
     else est = floats).
Proof.
  unfold value_estimates_of.
  intros (feed & Hfeed & (raw & Hraw & (floats & Hfl & Hest)%rbind_Ok)%rbind_Ok)%rbind_Ok.
  exists feed, raw, floats. split_and!; try done.
  destruct done; [done | by injection Hest].
Qed.

(** C1. When [get_value_estimates] is called with [done=True] and returns,
    a reward signal registered under [k] whose [use_terminal_states] is
    true has the estimate exactly 0.0: whatever the returned dict holds
    under [k] is 0.0, and it holds an entry under [k] as soon as the
    signal has a value head. Observation, memories and previous action
    are arbitrary. *)
Theorem terminal_estimates_are_zero next_obs pm vm pa w w' estimates k signal :
  get_value_estimates from_observations next_obs true pm vm pa w = (Ok estimates, w') →
  dict_get k (reward_signals (w_self w)) = Some signal →
  RewardSignal.use_terminal_states signal = true →
  (∀ v, dict_get k estimates = Some v → v = 0%float)
  ∧ (k ∈ dict_keys (value_heads (w_self w)) →
     dict_get k estimates = Some 0%float).
Proof.
  intros Hrun Hsig Huse.
  pose proof (get_value_estimates_result next_obs true pm vm pa w) as Hres.
  rewrite Hrun in Hres. simpl in Hres. symmetry in Hres.
  apply value_estimates_of_Ok in Hres as (feed & raw & floats & _ & Hraw & Hfl & Hzero).
  unfold zero_terminal_states in Hzero.
  assert (∀ k', k' ∈ dict_keys floats → dict_get k' (reward_signals (w_self w)) = Some signal →
            dict_get k' estimates = Some 0%float) as Hz.
  { intros k' Hin Hs. by eapply zero_loop_zeroed. }
  split.
  - intros v Hv. assert (k ∈ dict_keys estimates) as Hin.
    { apply dict_get_Some_keys. by eauto. }
    rewrite (zero_loop_keys _ _ _ _ Hzero) in Hin by done.
    rewrite (Hz k Hin Hsig) in Hv. by injection Hv.
  - intros Hin. apply Hz; [|done].
    apply (dict_comprehension_keys _ _ _ _ Hfl).
    apply run_dict_Ok in Hraw.
    by rewrite (Forall2_keys (λ t v, graph (w_sess w) feed t = Ok v) _ _ Hraw).
Qed.

(** C2. When [get_value_estimates] is called with [done=True] and returns,
    a reward signal registered under [k] whose [use_terminal_states] is
    false keeps the estimate the network computed: the float of what the
    signal's value head evaluates to under the feed of the call, which is
    also what the same call with [done=False] returns for it. *)
Theorem nonterminal_estimates_pass_through next_obs pm vm pa w w' estimates k signal t :
  dict_wf (value_heads (w_self w)) →
  get_value_estimates from_observations next_obs true pm vm pa w = (Ok estimates, w') →
  dict_get k (reward_signals (w_self w)) = Some signal →
  RewardSignal.use_terminal_states signal = false →
  dict_get k (value_heads (w_self w)) = Some t →
  ∃ feed v x,
    value_feed_dict from_observations (w_self w) next_obs pm vm pa = Ok feed
    ∧ graph (w_sess w) feed t = Ok v
    ∧ to_float v = Ok x
    ∧ dict_get k estimates = Some x
    ∧ ∃ computed,
        get_value_estimates from_observations next_obs false pm vm pa w = (Ok computed, w')
        ∧ dict_get k computed = Some x.
Proof.
  intros Hwf Hrun Hsig Huse Hhead.
  pose proof (get_value_estimates_result next_obs true pm vm pa w) as Hres.
  pose proof (get_value_estimates_state next_obs true pm vm pa w) as Hst.
  rewrite Hrun in Hres, Hst. simpl in Hres, Hst. symmetry in Hres.
  apply value_estimates_of_Ok in Hres as (feed & raw & floats & Hfeed & Hraw & Hfl & Hzero).
  unfold zero_terminal_states in Hzero.
  apply run_dict_Ok in Hraw as Hall.
  pose proof (Forall2_keys (λ t v, graph (w_sess w) feed t = Ok v) _ _ Hall) as Hkeys.
  destruct (Forall2_dict_get (λ t v, graph (w_sess w) feed t = Ok v) _ _ _ _ Hall Hhead)
    as (v & Hv & Hgraph).
  assert (dict_wf raw) as Hwf_raw by (unfold dict_wf; by rewrite Hkeys).
  pose proof (dict_comprehension_wf _ _ _ Hwf_raw Hfl) as Hall'.
  destruct (Forall2_dict_get (λ v x, to_float v = Ok x) _ _ _ _ Hall' Hv)
    as (x & Hx & Hfloat).
  exists feed, v, x. split_and!; try done.
  - rewrite (zero_loop_kept _ _ _ _ k Hzero); [done|]. right. eauto.
  - exists floats. split; [|done].
    pose proof (get_value_estimates_result next_obs false pm vm pa w) as Hres.
    unfold value_estimates_of in Hres.
    rewrite Hfeed in Hres. simpl in Hres. rewrite Hraw in Hres. simpl in Hres.
    rewrite Hfl in Hres. simpl in Hres.
    destruct (get_value_estimates from_observations next_obs false pm vm pa w) as [r s].
    simpl in *. by subst.
Qed.

(** C6. [get_value_estimates] is deterministic: called with the same
    arguments in two states that hold the same optimizer object and whose
    sessions compute the same function (no [update] in between), it returns
    the same result, whatever else differs (the trainer's batch, the runs
    made before); in particular a second call right after the first returns
    what the first returned. *)
Theorem get_value_estimates_deterministic next_obs done pm vm pa w1 w2 :
  w_self w1 = w_self w2 →
  graph (w_sess w1) = graph (w_sess w2) →
  (get_value_estimates from_observations next_obs done pm vm pa w1).1 =
    (get_value_estimates from_observations next_obs done pm vm pa w2).1
  ∧ (get_value_estimates from_observations next_obs done pm vm pa
       (get_value_estimates from_observations next_obs done pm vm pa w1).2).1 =
    (get_value_estimates from_observations next_obs done pm vm pa w1).1.
Proof.
  intros Hself Hgraph. rewrite !get_value_estimates_result.
  rewrite (get_value_estimates_frame_self next_obs done pm vm pa w1).
  rewrite (get_value_estimates_frame_graph next_obs done pm vm pa w1).
  by rewrite Hself, Hgraph.
Qed.
End value_estimates.

(** ** The zero-memory helper *)

Lemma rmap_np_zeros (m : Z) (l : list Z) :
  0 ≤ m →
  rmap (λ _, np_zeros m) l =
  Ok (replicate (length l) (NDArray [Z.to_nat m] (replicate (Z.to_nat m) 0%float))).
Proof.
  intros Hm. induction l as [|x l IH]; simpl; [done|].
  rewrite IH. unfold np_zeros. rewrite decide_False by lia. done.
Qed.

(** C5. For a size [m_size >= 0], a span of [length >= 0] timesteps and a
    positive policy sequence length, [_make_zero_mem(m_size, length)]
    returns a list of vectors of [m_size] zeros with one vector per started
    sequence: their number [n] is the ceiling of [length / sequence_length],
    that is [(n - 1) * sequence_length < length <= n * sequence_length].
    For [m_size = 8], [length = 24] and sequence length 8 these are 3
    vectors of 8 zeros. *)
Theorem make_zero_mem_vectors (m_size length : Z) (w : world) :
  0 ≤ m_size → 0 ≤ length →
  0 < Policy.sequence_length (policy (w_self w)) →
  ∃ n : nat,
    _make_zero_mem m_size length w =
      (Ok (replicate n (NDArray [Z.to_nat m_size]
                          (replicate (Z.to_nat m_size) 0%float))), w)
    ∧ (Z.of_nat n - 1) * Policy.sequence_length (policy (w_self w)) < length
    ∧ length ≤ Z.of_nat n * Policy.sequence_length (policy (w_self w))
    ∧ (m_size = 8 → length = 24 →
       Policy.sequence_length (policy (w_self w)) = 8 → n = 3%nat).
Proof.
  intros Hm Hlen Hstep. set (step := Policy.sequence_length (policy (w_self w))) in *.
  set (n := if decide (0 < length) then (length - 0 - 1) / step + 1 else 0).
  exists (Z.to_nat n).
  assert (0 ≤ n ∧ (n - 1) * step < length ∧ length ≤ n * step) as (Hn & Hlo & Hhi).
  { unfold n. destruct (decide (0 < length)) as [Hpos|Hnpos]; [|lia].
    replace (length - 0 - 1) with (length - 1) by lia.
    pose proof (Z.div_mod (length - 1) step ltac:(lia)) as Hdm.
    pose proof (Z.mod_pos_bound (length - 1) step Hstep) as Hmod.
    assert (0 ≤ (length - 1) / step) by (apply Z.div_pos; lia).
    split; [lia|]. split; nia. }
  split_and!.
  - unfold _make_zero_mem, bind, gets, lift, py_range. simpl. fold step.
    rewrite decide_False by lia. rewrite decide_True by lia. fold n. simpl.
    rewrite rmap_np_zeros by done. by rewrite length_map, length_seq.
  - lia.
  - lia.
  - intros -> -> Heq. rewrite Heq in *. lia.
Qed.

(** ** Construction and reward-signal wiring *)

Section wiring.
Context {config : Type}.
Context (create_reward_signal : TFPolicy → string → config → result RewardSignal).

Abbreviation step := (create_reward_signals_step create_reward_signal).
Abbreviation contribute :=
  (λ (ud : dict string tensor) (ns : string * RewardSignal),
     dict_update ud (RewardSignal.update_dict ns.2)).

Lemma create_reward_signals_step_eq item self :
  step item self =
  match create_reward_signal (policy self) item.1 item.2 with
  | Ok signal =>
      (Ok tt,
       set_update_dict
         (dict_update (update_dict self) (RewardSignal.update_dict signal))
         (set_reward_signals (dict_set item.1 signal (reward_signals self)) self))
  | Raise e => (Raise e, self)
  end.
Proof.
  unfold create_reward_signals_step, bind, gets, lift, modify. simpl.
  destruct (create_reward_signal _ _ _) as [signal|e]; [|done].
  simpl. unfold dict_getitem. by rewrite dict_get_set_eq.
Qed.

Lemma create_loop_update_dict_mono rest self k :
  k ∈ dict_keys (update_dict self) →
  k ∈ dict_keys (update_dict (for_each rest step self).2).
Proof.
  revert self. induction rest as [|item rest IH]; intros self Hin; simpl; [done|].
  unfold bind. rewrite create_reward_signals_step_eq.
  destruct (create_reward_signal _ _ _) as [signal|e]; simpl; [|done].
  apply IH. simpl. by apply dict_update_keys_mono.
Qed.

Lemma create_loop_policy rest self :
  policy (for_each rest step self).2 = policy self.
Proof.
  revert self. induction rest as [|item rest IH]; intros self; simpl; [done|].
  unfold bind. rewrite create_reward_signals_step_eq.
  destruct (create_reward_signal _ _ _) as [signal|e]; simpl; [|done].
  by rewrite IH.
Qed.

Lemma create_loop_Ok rest self self' u :
  NoDup (dict_keys (reward_signals self) ++ dict_keys rest) →
  for_each rest step self = (Ok u, self') →
  ∃ new,
    reward_signals self' = reward_signals self ++ new
    ∧ Forall2 (λ nc ns, nc.1 = ns.1 ∧
                 create_reward_signal (policy self) nc.1 nc.2 = Ok ns.2) rest new
    ∧ update_dict self' = foldl contribute (update_dict self) new.
Proof.
  revert self. induction rest as [|[name cfg] rest IH]; intros self Hnd; simpl.
  - intros [= _ <-]. exists []. by rewrite app_nil_r.
  - unfold bind. rewrite create_reward_signals_step_eq. simpl.
    destruct (create_reward_signal _ _ _) as [signal|e] eqn:Hsig; [|done].
    intros Hrest. assert (name ∉ dict_keys (reward_signals self)) as Hfresh.
    { unfold dict_keys in *. simpl in Hnd.
      apply NoDup_app in Hnd as (_ & Hdisj & _).
      intros Hin. apply (Hdisj name Hin). left. }
    apply IH in Hrest as (new & Hrs & Hall & Hud); simpl in *.
    + rewrite dict_set_notin in Hrs by done.
      exists ((name, signal) :: new). split_and!.
      * by rewrite Hrs, <- app_assoc.
      * by constructor.
      * done.
    + rewrite dict_set_notin by done. unfold dict_keys in *.
      rewrite fmap_app. simpl. by rewrite <- app_assoc.
Qed.

Lemma contribute_mono (new : dict string RewardSignal) ud k :
  k ∈ dict_keys ud → k ∈ dict_keys (foldl contribute ud new).
Proof.
  revert ud. induction new as [|ns new IH]; intros ud Hin; simpl; [done|].
  apply IH. by apply dict_update_keys_mono.
Qed.

Lemma dict_update_keys_new (d d2 : dict string tensor) k :
  k ∈ dict_keys d2 → k ∈ dict_keys (dict_update d d2).
Proof.
  unfold dict_update. revert d.
  induction d2 as [|[k' v'] d2 IH]; intros d Hin; simpl.
  - by apply elem_of_nil in Hin.
  - unfold dict_keys in Hin. simpl in Hin.
    apply elem_of_cons in Hin as [->|Hin].
    + apply (dict_update_keys_mono _ _ d2). apply dict_keys_set_elem. by left.
    + by apply IH.
Qed.

Lemma contribute_contains (new : dict string RewardSignal) ud name s k :
  (name, s) ∈ new → k ∈ dict_keys (RewardSignal.update_dict s) →
  k ∈ dict_keys (foldl contribute ud new).
Proof.
  revert ud. induction new as [|ns new IH]; intros ud Hin Hk; simpl.
  - by apply elem_of_nil in Hin.
  - apply elem_of_cons in Hin as [<-|Hin].
    + apply contribute_mono. simpl. by apply dict_update_keys_new.
    + by apply IH.
Qed.

Lemma contribute_get_other (new : dict string RewardSignal) ud k :
  (∀ name s, (name, s) ∈ new → k ∉ dict_keys (RewardSignal.update_dict s)) →
  dict_get k (foldl contribute ud new) = dict_get k ud.
Proof.
  revert ud. induction new as [|[name s] new IH]; intros ud Hk; simpl; [done|].
  rewrite IH.
  - apply dict_update_get_other. apply (Hk name s). left.
  - intros name' s' Hin. apply (Hk name' s'). by right.
Qed.

(** What a successful [create_reward_signals] leaves in [self]. *)
Lemma create_reward_signals_Ok configs self self' u :
  dict_wf configs →
  create_reward_signals create_reward_signal configs self = (Ok u, self') →
  dict_keys (reward_signals self') = dict_keys configs
  ∧ Forall2 (λ nc ns, nc.1 = ns.1 ∧
               create_reward_signal (policy self) nc.1 nc.2 = Ok ns.2)
      configs (reward_signals self')
  ∧ update_dict self' = foldl contribute (update_dict self) (reward_signals self')
  ∧ policy self' = policy self.
Proof.
  intros Hwf Hrun. unfold create_reward_signals, bind, modify in Hrun. simpl in Hrun.
  pose proof (create_loop_policy configs (set_reward_signals [] self)) as Hpol.
  apply create_loop_Ok in Hrun as Hloop; [|done].
  destruct Hloop as (new & Hrs & Hall & Hud). rewrite Hrun in Hpol.
  simpl in *. subst new. split_and!; try done.
  by apply (Forall2_keys
    (λ (c : config) s, ∃ name, create_reward_signal (policy self) name c = Ok s));
    eapply Forall2_impl; [exact Hall|]; naive_solver.
Qed.




(** C10. Two successive calls of [create_reward_signals], with the
    configurations [configs1] and then [configs2]: after each call the
    keys of [reward_signals] are the keys of the configuration of that
    call, in its order; [update_dict] only grows, and the update targets
    that the signals of the first call contributed are still in it after
    the second call, an entry keeping its tensor unless a signal of the
    second call contributes a target of the same name. *)
Theorem create_reward_signals_replaces_signals_extends_update_dict
    (configs1 configs2 : dict string config) (self self1 self2 : TFOptimizer) u1 u2 :
  dict_wf configs1 → dict_wf configs2 →
  create_reward_signals create_reward_signal configs1 self = (Ok u1, self1) →
  create_reward_signals create_reward_signal configs2 self1 = (Ok u2, self2) →
  dict_keys (reward_signals self1) = dict_keys configs1
  ∧ dict_keys (reward_signals self2) = dict_keys configs2
  ∧ (∀ k, k ∈ dict_keys (update_dict self) → k ∈ dict_keys (update_dict self1))
  ∧ (∀ k, k ∈ dict_keys (update_dict self1) → k ∈ dict_keys (update_dict self2))
  ∧ (∀ name s k,
       dict_get name (reward_signals self1) = Some s →
       k ∈ dict_keys (RewardSignal.update_dict s) →
       k ∈ dict_keys (update_dict self2))
  ∧ (∀ k t,
       dict_get k (update_dict self1) = Some t →
       (∀ name s, dict_get name (reward_signals self2) = Some s →
                  k ∉ dict_keys (RewardSignal.update_dict s)) →
       dict_get k (update_dict self2) = Some t).
Proof.
  intros Hwf1 Hwf2 Hrun1 Hrun2.
  destruct (create_reward_signals_Ok _ _ _ _ Hwf1 Hrun1) as (Hk1 & _ & Hud1 & _).
  destruct (create_reward_signals_Ok _ _ _ _ Hwf2 Hrun2) as (Hk2 & _ & Hud2 & _).
  split_and!; try done.
  - intros k Hin. rewrite Hud1. by apply contribute_mono.
  - intros k Hin. rewrite Hud2. by apply contribute_mono.
  - intros name s k Hs Hk. rewrite Hud2. apply contribute_mono.
    rewrite Hud1. eapply contribute_contains; [|done].
    by apply dict_get_elem_of.
  - intros k t Hget Hother. rewrite Hud2, contribute_get_other; [done|].
    intros name s Hin. apply (Hother name). apply dict_get_lookup_wf; [done|].
    unfold dict_wf. by rewrite Hk2.
Qed.
End wiring.

(** ** Trajectory value estimation *)

Section trajectory.
Context (from_observations : list ndarray → result SplitObservations).

(** Building the feed reads the batch and the optimizer; the state stays. *)
Lemma trajectory_feed_dict_state self w :
  (trajectory_feed_dict self w).2 = w.
Proof.
  revert w. change (frame (λ w : world, w) (trajectory_feed_dict self)).
  unfold trajectory_feed_dict. frame_solver.
Qed.

Lemma get_trajectory_value_estimates_frame_batch next_obs done :
  frame w_batch (get_trajectory_value_estimates from_observations next_obs done).
Proof.
  unfold get_trajectory_value_estimates, trajectory_feed_dict.
  pose proof (get_value_estimates_frame_batch from_observations).
  frame_solver.
Qed.

(** A successful call: the feed built from the batch, the batch run, the
    squeeze, and the call of [get_value_estimates] that ends it. *)
Lemma get_trajectory_value_estimates_Ok next_obs done w traj boot w' :
  get_trajectory_value_estimates from_observations next_obs done w
    = (Ok (traj, boot), w') →
  ∃ feed raw pm vm pa w1,
    trajectory_feed_dict (w_self w) w = (Ok feed, w)
    ∧ run_dict (graph (w_sess w)) feed (value_heads (w_self w)) = Ok raw
    ∧ dict_comprehension np_squeeze_axis1 raw = Ok traj
    ∧ get_value_estimates from_observations next_obs done pm vm pa w1 = (Ok boot, w')
    ∧ w_self w1 = w_self w
    ∧ graph (w_sess w1) = graph (w_sess w)
    ∧ runs (w_sess w1) = runs (w_sess w) ++ [RunRecord (batch_fetches (w_self w)) feed]
    ∧ if Policy.use_recurrent (policy (w_self w))
      then ∃ pmem vmem actions action,
             graph (w_sess w) feed (Policy.memory_out (policy (w_self w))) = Ok pmem
             ∧ graph (w_sess w) feed (memory_out (w_self w)) = Ok vmem
             ∧ dict_get "actions" (buffer_fields (w_batch w)) = Some actions
             ∧ last actions = Some action
             ∧ pm = Some pmem ∧ vm = Some vmem ∧ pa = Some action
      else pm = None ∧ vm = None ∧ pa = None.
Proof.
  unfold get_trajectory_value_estimates. intros H.
  apply bind_Ok in H as (self & s0 & [-> ->]%gets_Ok & H).
  apply bind_Ok in H as (feed & s1 & Hfeed & H).
  pose proof (trajectory_feed_dict_state (w_self w) w) as Hs1.
  rewrite Hfeed in Hs1. simpl in Hs1. subst s1.
  apply bind_Ok in H as ([[[raw pm] vm] pa] & w1 & Hrun & H).
  apply bind_Ok in H as (traj' & s3 & [Hsq ->]%lift_Ok & H).
  apply bind_Ok in H as (boot' & s4 & Hgve & [[= <- <-] ->]%ret_Ok).
  exists feed, raw, pm, vm, pa, w1. unfold batch_fetches.
  destruct (Policy.use_recurrent (policy (w_self w))).
  - apply bind_Ok in Hrun as (out & s5 & Hout & Hrun).
    apply sess_run_Ok in Hout as (Hout & Hself & Hbatch & Hgraph & Hruns).
    apply bind_Ok in Hrun as ([[d pmem] vmem] & s6 & [Hgot ->]%lift_Ok & Hrun).
    apply bind_Ok in Hrun as (actions & s7 & Hacts & Hrun).
    unfold buffer_getitem, dict_getitem in Hacts.
    destruct (dict_get "actions" _) as [acts|] eqn:Hfield; [|done].
    injection Hacts as -> ->.
    apply bind_Ok in Hrun as (action & s8 & [Hlast ->]%lift_Ok & [[= -> -> -> ->] ->]%ret_Ok).
    unfold list_last in Hlast. destruct (last actions) as [a|] eqn:Hl; [|done].
    injection Hlast as <-.
    simpl in Hout.
    destruct (run_dict _ _ _) as [raw|e]; simpl in Hout; [|done].
    destruct (graph (w_sess w) feed (Policy.memory_out _)) as [x|e]; simpl in Hout; [|done].
    destruct (graph (w_sess w) feed (memory_out _)) as [y|e]; simpl in Hout; [|done].
    injection Hout as <-. simpl in Hgot. injection Hgot as <- <- <-.
    rewrite Hbatch in Hfield.
    split_and!; try done. exists x, y, actions, a. by split_and!.
  - apply bind_Ok in Hrun as (out & s5 & Hout & Hrun).
    apply sess_run_Ok in Hout as (Hout & Hself & Hbatch & Hgraph & Hruns).
    apply bind_Ok in Hrun as (d & s6 & [Hgot ->]%lift_Ok & [[= -> -> -> ->] ->]%ret_Ok).
    simpl in Hout.
    destruct (run_dict _ _ _) as [raw'|e]; simpl in Hout; [|done].
    injection Hout as <-. simpl in Hgot. injection Hgot as <-.
    by split_and!.
Qed.

(** C3 (amended). When [get_trajectory_value_estimates] returns, its two
    dicts have the same keys, in the same order: the keys of
    [value_heads]. They are the names of the registered reward signals
    when the optimizer has one value head per registered signal; with
    [done=True] the call returns only if every value head is named after a
    registered signal. *)
Theorem trajectory_estimates_keys next_obs done w traj boot w' :
  dict_wf (value_heads (w_self w)) →
  get_trajectory_value_estimates from_observations next_obs done w
    = (Ok (traj, boot), w') →
  dict_keys traj = dict_keys (value_heads (w_self w))
  ∧ dict_keys boot = dict_keys (value_heads (w_self w))
  ∧ (dict_keys (value_heads (w_self w)) = dict_keys (reward_signals (w_self w)) →
     dict_keys traj = dict_keys (reward_signals (w_self w))
     ∧ dict_keys boot = dict_keys (reward_signals (w_self w)))
  ∧ (done = true →
     ∀ k, k ∈ dict_keys (value_heads (w_self w)) →
          k ∈ dict_keys (reward_signals (w_self w))).
Proof.
  intros Hwf Hrun.
  apply get_trajectory_value_estimates_Ok in Hrun
    as (feed & raw & pm & vm & pa & w1 & _ & Hraw & Hsq & Hgve & Hself & Hgraph & _).
  assert (∀ g fd (r : dict string ndarray) W (f : ndarray → result W) out,
            run_dict g fd (value_heads (w_self w)) = Ok r →
            dict_comprehension f r = Ok out →
            dict_keys out = dict_keys (value_heads (w_self w))) as Hkeys.
  { intros g fd r W f out Hr Hout. apply run_dict_Ok in Hr.
    pose proof (Forall2_keys (λ t v, g fd t = Ok v) _ _ Hr) as Hk.
    assert (dict_wf r) as Hwf_r by (unfold dict_wf; by rewrite Hk).
    pose proof (dict_comprehension_wf _ _ _ Hwf_r Hout) as Hall.
    by rewrite (Forall2_keys (λ v x, f v = Ok x) _ _ Hall). }
  assert (dict_keys traj = dict_keys (value_heads (w_self w))) as Htraj by eauto.
  pose proof (get_value_estimates_result from_observations next_obs done pm vm pa w1) as Hres.
  rewrite Hgve in Hres. simpl in Hres. symmetry in Hres. rewrite Hself in Hres.
  apply value_estimates_of_Ok in Hres as (fd & r & floats & _ & Hr & Hfl & Hzero).
  assert (dict_keys boot = dict_keys (value_heads (w_self w))) as Hboot.
  { destruct done.
    - unfold zero_terminal_states in Hzero.
      rewrite (zero_loop_keys _ _ _ _ Hzero) by done. eauto.
    - subst boot. eauto. }
  split_and!; try done.
  - intros <-. by split.
  - intros -> k Hk. apply dict_get_Some_keys.
    unfold zero_terminal_states in Hzero.
    apply (zero_loop_registered _ _ _ _ k Hzero).
    by rewrite (Hkeys _ _ _ _ _ _ Hr Hfl).
Qed.

(** C4 (amended). [get_trajectory_value_estimates] ends with a call of
    [get_value_estimates] on [next_obs] and [done], whose result is the
    bootstrap estimate it returns. For a recurrent policy the call is given
    the policy memory and the value memory that the batch run put out, and
    the last entry of the field ["actions"] of the batch as previous action;
    for a policy that is not recurrent it is given [None] for all three. *)
Theorem trajectory_estimates_delegate next_obs done w traj boot w' :
  get_trajectory_value_estimates from_observations next_obs done w
    = (Ok (traj, boot), w') →
  ∃ feed pm vm pa w1,
    trajectory_feed_dict (w_self w) w = (Ok feed, w)
    ∧ get_value_estimates from_observations next_obs done pm vm pa w1 = (Ok boot, w')
    ∧ w_self w1 = w_self w
    ∧ graph (w_sess w1) = graph (w_sess w)
    ∧ if Policy.use_recurrent (policy (w_self w))
      then ∃ pmem vmem actions action,
             graph (w_sess w) feed (Policy.memory_out (policy (w_self w))) = Ok pmem
             ∧ graph (w_sess w) feed (memory_out (w_self w)) = Ok vmem
             ∧ dict_get "actions" (buffer_fields (w_batch w)) = Some actions
             ∧ last actions = Some action
             ∧ pm = Some pmem ∧ vm = Some vmem ∧ pa = Some action
      else pm = None ∧ vm = None ∧ pa = None.
Proof.
  intros Hrun.
  apply get_trajectory_value_estimates_Ok in Hrun
    as (feed & raw & pm & vm & pa & w1 & Hfeed & _ & _ & Hgve & Hself & Hgraph & _ & Hargs).
  exists feed, pm, vm, pa, w1. by split_and!.
Qed.

(** C8. [get_trajectory_value_estimates] leaves the batch as it was,
    fields and count of experiences, whether it returns or raises. *)
Theorem trajectory_estimates_keep_batch next_obs done w :
  w_batch (get_trajectory_value_estimates from_observations next_obs done w).2
    = w_batch w.
Proof. apply get_trajectory_value_estimates_frame_batch. Qed.
End trajectory.

(** ** The statements at concrete inputs *)

Lemma run_eq {S A} (m : ST S A) (s : S) (r : result A) :
  (m s).1 = r → m s = (r, (m s).2).
Proof. intros <-. by destruct (m s). Qed.

Lemma get_value_estimates_Ok_run from_observations next_obs done pm vm pa w est w' :
  get_value_estimates from_observations next_obs done pm vm pa w = (Ok est, w') →
  ∃ feed,
    value_feed_dict from_observations (w_self w) next_obs pm vm pa = Ok feed
    ∧ w_self w' = w_self w
    ∧ runs (w_sess w') =
        runs (w_sess w) ++ [RunRecord (Single (FetchDict (value_heads (w_self w)))) feed].
Proof.
  unfold get_value_estimates. intros H.
  apply bind_Ok in H as (self & s0 & [-> ->]%gets_Ok & H).
  apply bind_Ok in H as (feed & s1 & [Hfeed ->]%lift_Ok & H).
  apply bind_Ok in H as (out & s2 & Hout & H).
  apply sess_run_Ok in Hout as (_ & Hself & _ & _ & Hruns).
  apply bind_Ok in H as (raw & s3 & [_ ->]%lift_Ok & H).
  apply bind_Ok in H as (floats & s4 & [_ ->]%lift_Ok & H).
  exists feed. destruct done.
  - apply lift_Ok in H as [_ ->]. by split_and!.
  - apply ret_Ok in H as [_ ->]. by split_and!.
Qed.

Lemma value_feed_dict_prev_action from_observations self next_obs pm vm a feed :
  value_feed_dict from_observations self next_obs pm vm (Some a) = Ok feed →
  dict_get (Policy.prev_action (policy self)) feed = Some (FList [a]).
Proof.
  unfold value_feed_dict.
  intros (obs & _ & (fd & _ & [= <-])%rbind_Ok)%rbind_Ok.
  apply dict_get_set_eq.
Qed.

Section witnesses.
Import Scenario.

Lemma terminal_estimates_are_zero_witness :
  get_value_estimates from_observations [observation] true None None None
      (state (optimizer plain_policy) batch)
    = (Ok [("extrinsic", 0%float); ("curiosity", 0.5%float)],
       (get_value_estimates from_observations [observation] true None None None
          (state (optimizer plain_policy) batch)).2)
  ∧ dict_get "extrinsic" (reward_signals (optimizer plain_policy)) = Some extrinsic_signal
  ∧ RewardSignal.use_terminal_states extrinsic_signal = true
  ∧ (∀ v, dict_get "extrinsic" [("extrinsic", 0%float); ("curiosity", 0.5%float)] = Some v →
          v = 0%float)
  ∧ ("extrinsic" ∈ dict_keys (value_heads (optimizer plain_policy)) →
     dict_get "extrinsic" [("extrinsic", 0%float); ("curiosity", 0.5%float)] = Some 0%float).
Proof.
  assert (get_value_estimates from_observations [observation] true None None None
            (state (optimizer plain_policy) batch)
          = (Ok [("extrinsic", 0%float); ("curiosity", 0.5%float)],
             (get_value_estimates from_observations [observation] true None None None
                (state (optimizer plain_policy) batch)).2)) as Hrun.
  { apply run_eq. vm_compute. reflexivity. }
  assert (dict_get "extrinsic" (reward_signals (optimizer plain_policy))
          = Some extrinsic_signal) as Hsig by reflexivity.
  assert (RewardSignal.use_terminal_states extrinsic_signal = true) as Huse by reflexivity.
  split; [exact Hrun|]. split; [exact Hsig|]. split; [exact Huse|].
  exact (terminal_estimates_are_zero from_observations [observation] None None None
           (state (optimizer plain_policy) batch) _ _ "extrinsic" extrinsic_signal
           Hrun Hsig Huse).
Defined.

Lemma nonterminal_estimates_pass_through_witness :
  dict_wf (value_heads (optimizer plain_policy))
  ∧ get_value_estimates from_observations [observation] true None None None
        (state (optimizer plain_policy) batch)
      = (Ok [("extrinsic", 0%float); ("curiosity", 0.5%float)],
         (get_value_estimates from_observations [observation] true None None None
            (state (optimizer plain_policy) batch)).2)
  ∧ dict_get "curiosity" (reward_signals (optimizer plain_policy)) = Some curiosity_signal
  ∧ RewardSignal.use_terminal_states curiosity_signal = false
  ∧ dict_get "curiosity" (value_heads (optimizer plain_policy)) = Some (ph "curiosity_value")
  ∧ ∃ feed v x,
      value_feed_dict from_observations (optimizer plain_policy) [observation]
        None None None = Ok feed
      ∧ sample_graph feed (ph "curiosity_value") = Ok v
      ∧ to_float v = Ok x
      ∧ dict_get "curiosity" [("extrinsic", 0%float); ("curiosity", 0.5%float)] = Some x
      ∧ ∃ computed,
          get_value_estimates from_observations [observation] false None None None
              (state (optimizer plain_policy) batch)
            = (Ok computed,
               (get_value_estimates from_observations [observation] true None None None
                  (state (optimizer plain_policy) batch)).2)
          ∧ dict_get "curiosity" computed = Some x.
Proof.
  assert (dict_wf (value_heads (optimizer plain_policy))) as Hwf.
  { apply (bool_decide_unpack _). vm_compute. exact I. }
  assert (get_value_estimates from_observations [observation] true None None None
            (state (optimizer plain_policy) batch)
          = (Ok [("extrinsic", 0%float); ("curiosity", 0.5%float)],
             (get_value_estimates from_observations [observation] true None None None
                (state (optimizer plain_policy) batch)).2)) as Hrun.
  { apply run_eq. vm_compute. reflexivity. }
  assert (dict_get "curiosity" (reward_signals (optimizer plain_policy))
          = Some curiosity_signal) as Hsig by reflexivity.
  assert (RewardSignal.use_terminal_states curiosity_signal = false) as Huse by reflexivity.
  assert (dict_get "curiosity" (value_heads (optimizer plain_policy))
          = Some (ph "curiosity_value")) as Hhead by reflexivity.
  split; [exact Hwf|]. split; [exact Hrun|]. split; [exact Hsig|].
  split; [exact Huse|]. split; [exact Hhead|].
  exact (nonterminal_estimates_pass_through from_observations [observation] None None None
           (state (optimizer plain_policy) batch) _ _ "curiosity" curiosity_signal
           (ph "curiosity_value") Hwf Hrun Hsig Huse Hhead).
Defined.

Lemma get_value_estimates_deterministic_witness :
  w_self (state (optimizer plain_policy) batch)
    = w_self {| w_self := optimizer plain_policy; w_batch := empty_batch;
                w_sess := used_session |}
  ∧ graph (w_sess (state (optimizer plain_policy) batch))
    = graph (w_sess {| w_self := optimizer plain_policy; w_batch := empty_batch;
                       w_sess := used_session |})
  ∧ (get_value_estimates from_observations [observation] true None None None
       (state (optimizer plain_policy) batch)).1
    = (get_value_estimates from_observations [observation] true None None None
         {| w_self := optimizer plain_policy; w_batch := empty_batch;
            w_sess := used_session |}).1
  ∧ (get_value_estimates from_observations [observation] true None None None
       (get_value_estimates from_observations [observation] true None None None
          (state (optimizer plain_policy) batch)).2).1
    = (get_value_estimates from_observations [observation] true None None None
         (state (optimizer plain_policy) batch)).1.
Proof.
  split; [reflexivity|]. split; [reflexivity|].
  exact (get_value_estimates_deterministic from_observations [observation] true
           None None None (state (optimizer plain_policy) batch)
           {| w_self := optimizer plain_policy; w_batch := empty_batch;
              w_sess := used_session |} eq_refl eq_refl).
Defined.
End witnesses.

Section trajectory_instances.
Import Scenario.

Lemma trajectory_estimates_keys_witness :
  dict_wf (value_heads (w_self (state (optimizer plain_policy) batch)))
  ∧ get_trajectory_value_estimates from_observations [observation] true
        (state (optimizer plain_policy) batch)
      = (Ok ([("extrinsic", NDArray [10%nat] (replicate 10 0.5%float));
              ("curiosity", NDArray [10%nat] (replicate 10 0.5%float))],
             [("extrinsic", 0%float); ("curiosity", 0.5%float)]),
         (get_trajectory_value_estimates from_observations [observation] true
            (state (optimizer plain_policy) batch)).2)
  ∧ dict_keys [("extrinsic", NDArray [10%nat] (replicate 10 0.5%float));
               ("curiosity", NDArray [10%nat] (replicate 10 0.5%float))]
    = dict_keys (value_heads (optimizer plain_policy))
  ∧ dict_keys [("extrinsic", 0%float); ("curiosity", 0.5%float)]
    = dict_keys (value_heads (optimizer plain_policy)).
Proof.
  assert (dict_wf (value_heads (w_self (state (optimizer plain_policy) batch)))) as Hwf.
  { apply (bool_decide_unpack _). vm_compute. exact I. }
  assert (get_trajectory_value_estimates from_observations [observation] true
            (state (optimizer plain_policy) batch)
          = (Ok ([("extrinsic", NDArray [10%nat] (replicate 10 0.5%float));
                  ("curiosity", NDArray [10%nat] (replicate 10 0.5%float))],
                 [("extrinsic", 0%float); ("curiosity", 0.5%float)]),
             (get_trajectory_value_estimates from_observations [observation] true
                (state (optimizer plain_policy) batch)).2)) as Hrun.
  { apply run_eq. vm_compute. reflexivity. }
  split; [exact Hwf|]. split; [exact Hrun|].
  destruct (trajectory_estimates_keys from_observations [observation] true
              (state (optimizer plain_policy) batch) _ _ _ Hwf Hrun) as (Htraj & Hboot & _ & _).
  split; [exact Htraj | exact Hboot].
Defined.

(** C3 as stated fails on the optimizer that [TFOptimizer.__init__]
    leaves: ["extrinsic"] and ["curiosity"] are registered, [value_heads]
    is empty, and the call returns two empty dicts. It fails as well on an
    optimizer with a value head for one of the two signals only. *)
Lemma trajectory_estimates_keys_counterexample :
  TFOptimizer_init create_reward_signal (Some plain_policy)
      (trainer_params ["extrinsic"; "curiosity"])
    = Ok (constructed plain_policy)
  ∧ dict_keys (reward_signals (constructed plain_policy)) = ["extrinsic"; "curiosity"]
  ∧ (∃ traj boot w',
      get_trajectory_value_estimates from_observations [observation] true
          (state (constructed plain_policy) batch)
        = (Ok (traj, boot), w')
      ∧ (list_to_set (dict_keys traj) : gset string)
          ≠ list_to_set (dict_keys (reward_signals (constructed plain_policy)))
      ∧ (list_to_set (dict_keys boot) : gset string)
          ≠ list_to_set (dict_keys (reward_signals (constructed plain_policy))))
  ∧ (∃ traj boot w',
      get_trajectory_value_estimates from_observations [observation] true
          (state (one_head_optimizer plain_policy) batch)
        = (Ok (traj, boot), w')
      ∧ (list_to_set (dict_keys traj) : gset string)
          ≠ list_to_set (dict_keys (reward_signals (one_head_optimizer plain_policy)))
      ∧ (list_to_set (dict_keys boot) : gset string)
          ≠ list_to_set (dict_keys (reward_signals (one_head_optimizer plain_policy)))).
Proof.
  split; [vm_compute; reflexivity|]. split; [reflexivity|]. split.
  - exists [], [],
      (get_trajectory_value_estimates from_observations [observation] true
         (state (constructed plain_policy) batch)).2.
    split; [apply run_eq; vm_compute; reflexivity|].
    assert ((list_to_set [] : gset string) ≠ list_to_set ["extrinsic"; "curiosity"]) as Hne.
    { intros Heq. assert ("extrinsic" ∈ (list_to_set [] : gset string)) as Hin.
      { rewrite Heq. set_solver. }
      set_solver. }
    split; exact Hne.
  - exists [("extrinsic", NDArray [10%nat] (replicate 10 0.5%float))],
           [("extrinsic", 0%float)],
      (get_trajectory_value_estimates from_observations [observation] true
         (state (one_head_optimizer plain_policy) batch)).2.
    split; [apply run_eq; vm_compute; reflexivity|].
    assert ((list_to_set ["extrinsic"] : gset string)
            ≠ list_to_set ["extrinsic"; "curiosity"]) as Hne.
    { intros Heq. assert ("curiosity" ∈ (list_to_set ["extrinsic"] : gset string)) as Hin.
      { rewrite Heq. set_solver. }
      set_solver. }
    split; exact Hne.
Qed.

Lemma trajectory_estimates_delegate_witness :
  get_trajectory_value_estimates from_observations [observation] true
      (state (optimizer recurrent_policy) batch)
    = (Ok ([("extrinsic", NDArray [10%nat] (replicate 10 2%float));
            ("curiosity", NDArray [10%nat] (replicate 10 2%float))],
           [("extrinsic", 0%float); ("curiosity", 2%float)]),
       (get_trajectory_value_estimates from_observations [observation] true
          (state (optimizer recurrent_policy) batch)).2)
  ∧ ∃ feed pm vm pa w1,
      trajectory_feed_dict (optimizer recurrent_policy)
          (state (optimizer recurrent_policy) batch)
        = (Ok feed, state (optimizer recurrent_policy) batch)
      ∧ get_value_estimates from_observations [observation] true pm vm pa w1
        = (Ok [("extrinsic", 0%float); ("curiosity", 2%float)],
           (get_trajectory_value_estimates from_observations [observation] true
              (state (optimizer recurrent_policy) batch)).2)
      ∧ w_self w1 = optimizer recurrent_policy
      ∧ graph (w_sess w1) = sample_graph
      ∧ ∃ pmem vmem actions a,
          sample_graph feed (ph "recurrent_out") = Ok pmem
          ∧ sample_graph feed (ph "value_memory_out") = Ok vmem
          ∧ dict_get "actions" (buffer_fields batch) = Some actions
          ∧ last actions = Some a
          ∧ pm = Some pmem ∧ vm = Some vmem ∧ pa = Some a.
Proof.
  assert (get_trajectory_value_estimates from_observations [observation] true
            (state (optimizer recurrent_policy) batch)
          = (Ok ([("extrinsic", NDArray [10%nat] (replicate 10 2%float));
                  ("curiosity", NDArray [10%nat] (replicate 10 2%float))],
                 [("extrinsic", 0%float); ("curiosity", 2%float)]),
             (get_trajectory_value_estimates from_observations [observation] true
                (state (optimizer recurrent_policy) batch)).2)) as Hrun.
  { apply run_eq. vm_compute. reflexivity. }
  split; [exact Hrun|].
  exact (trajectory_estimates_delegate from_observations [observation] true
           (state (optimizer recurrent_policy) batch) _ _ _ Hrun).
Defined.

(** C4 as stated fails for a policy that has a placeholder for the
    previous action and is not recurrent: the bootstrap estimate is not
    the result of any call of [get_value_estimates] that is given an action
    of the batch, since the feed of the last run has no entry for the
    placeholder. *)
Lemma trajectory_estimates_delegate_counterexample :
  Policy.prev_action (policy (optimizer discrete_policy)) = ph "prev_action"
  ∧ Policy.use_recurrent (policy (optimizer discrete_policy)) = false
  ∧ (actions ← dict_get "actions" (buffer_fields batch); last actions) = Some action
  ∧ ∃ traj boot w',
      get_trajectory_value_estimates from_observations [observation] false
          (state (optimizer discrete_policy) batch)
        = (Ok (traj, boot), w')
      ∧ dict_get "extrinsic" boot = Some 0.5%float
      ∧ (get_value_estimates from_observations [observation] false None None
           (Some action) (state (optimizer discrete_policy) batch)).1
        = Ok [("extrinsic", 2%float); ("curiosity", 2%float)]
      ∧ ¬ ∃ pm vm a w1,
            get_value_estimates from_observations [observation] false pm vm (Some a) w1
            = (Ok boot, w').
Proof.
  split; [reflexivity|]. split; [reflexivity|]. split; [vm_compute; reflexivity|].
  exists [("extrinsic", NDArray [10%nat] (replicate 10 2%float));
          ("curiosity", NDArray [10%nat] (replicate 10 2%float))],
         [("extrinsic", 0.5%float); ("curiosity", 0.5%float)],
         (get_trajectory_value_estimates from_observations [observation] false
            (state (optimizer discrete_policy) batch)).2.
  split; [apply run_eq; vm_compute; reflexivity|].
  split; [reflexivity|]. split; [vm_compute; reflexivity|].
  intros (pm & vm & a & w1 & Hrun).
  apply get_value_estimates_Ok_run in Hrun as (feed & Hfeed & Hself & Hruns).
  apply value_feed_dict_prev_action in Hfeed. rewrite <- Hself in Hfeed.
  assert (run_feed <$> last (runs (w_sess
            (get_trajectory_value_estimates from_observations [observation] false
               (state (optimizer discrete_policy) batch)).2))
          = Some [(ph "batch_size", FInt 1); (ph "sequence_length", FInt 1);
                  (ph "vector_observation", FList [observation])]) as Hlast.
  { vm_compute. reflexivity. }
  rewrite Hruns, last_snoc in Hlast. simpl in Hlast. injection Hlast as ->.
  vm_compute in Hfeed. discriminate Hfeed.
Qed.

Lemma make_zero_mem_vectors_witness :
  0 ≤ 8 ∧ 0 ≤ 24
  ∧ 0 < Policy.sequence_length (policy (w_self (state (optimizer plain_policy) batch)))
  ∧ _make_zero_mem 8 24 (state (optimizer plain_policy) batch)
    = (Ok (replicate 3 (NDArray [8%nat] (replicate 8 0%float))),
       state (optimizer plain_policy) batch).
Proof.
  assert (0 ≤ 8) as Hm by lia. assert (0 ≤ 24) as Hlen by lia.
  assert (0 < Policy.sequence_length
                (policy (w_self (state (optimizer plain_policy) batch)))) as Hstep
    by (simpl; lia).
  split; [exact Hm|]. split; [exact Hlen|]. split; [exact Hstep|].
  destruct (make_zero_mem_vectors 8 24 (state (optimizer plain_policy) batch)
              Hm Hlen Hstep) as (n & Hrun & _ & _ & Hn).
  rewrite (Hn eq_refl eq_refl eq_refl) in Hrun. exact Hrun.
Defined.

Lemma execute_model_keys_values_witness :
  dict_wf [("value", ph "extrinsic_value"); ("memory", ph "recurrent_out")]
  ∧ _execute_model [(ph "batch_size", FInt 1)]
        [("value", ph "extrinsic_value"); ("memory", ph "recurrent_out")]
        (state (optimizer recurrent_policy) batch)
      = (Ok [("value", NDArray [1%nat; 1%nat] [0.5%float]);
             ("memory", NDArray [1%nat; 2%nat] [1%float; 1%float])],
         (_execute_model [(ph "batch_size", FInt 1)]
            [("value", ph "extrinsic_value"); ("memory", ph "recurrent_out")]
            (state (optimizer recurrent_policy) batch)).2)
  ∧ dict_keys [("value", NDArray [1%nat; 1%nat] [0.5%float]);
               ("memory", NDArray [1%nat; 2%nat] [1%float; 1%float])]
    = dict_keys [("value", ph "extrinsic_value"); ("memory", ph "recurrent_out")]
  ∧ runs (w_sess (_execute_model [(ph "batch_size", FInt 1)]
                    [("value", ph "extrinsic_value"); ("memory", ph "recurrent_out")]
                    (state (optimizer recurrent_policy) batch)).2)
    = runs (w_sess (state (optimizer recurrent_policy) batch))
      ++ [RunRecord
            (Several (map FetchTensor
               (dict_values [("value", ph "extrinsic_value");
                             ("memory", ph "recurrent_out")])))
            [(ph "batch_size", FInt 1)]].
Proof.
  assert (dict_wf [("value", ph "extrinsic_value"); ("memory", ph "recurrent_out")]) as Hwf.
  { apply (bool_decide_unpack _). vm_compute. exact I. }
  assert (_execute_model [(ph "batch_size", FInt 1)]
            [("value", ph "extrinsic_value"); ("memory", ph "recurrent_out")]
            (state (optimizer recurrent_policy) batch)
          = (Ok [("value", NDArray [1%nat; 1%nat] [0.5%float]);
                 ("memory", NDArray [1%nat; 2%nat] [1%float; 1%float])],
             (_execute_model [(ph "batch_size", FInt 1)]
                [("value", ph "extrinsic_value"); ("memory", ph "recurrent_out")]
                (state (optimizer recurrent_policy) batch)).2)) as Hrun.
  { apply run_eq. vm_compute. reflexivity. }
  split; [exact Hwf|]. split; [exact Hrun|].
  destruct (execute_model_keys_values _ _ _ _ _ Hwf Hrun) as (Hkeys & _ & _ & Hruns & _).
  split; [exact Hkeys | exact Hruns].
Defined.
End trajectory_instances.

Section wiring_instances.
Import Scenario.



(** The optimizer after [create_reward_signals] for ["curiosity"] alone,
    and then for ["gail"] alone: the targets of curiosity are still there. *)
Lemma create_reward_signals_replaces_signals_extends_update_dict_witness :
  dict_wf [("curiosity", 1)] ∧ dict_wf [("gail", 1)]
  ∧ (create_reward_signals create_reward_signal [("curiosity", 1)]
       (constructed plain_policy)).1 = Ok tt
  ∧ (create_reward_signals create_reward_signal [("gail", 1)]
       (create_reward_signals create_reward_signal [("curiosity", 1)]
          (constructed plain_policy)).2).1 = Ok tt
  ∧ dict_keys (reward_signals
       (create_reward_signals create_reward_signal [("gail", 1)]
          (create_reward_signals create_reward_signal [("curiosity", 1)]
             (constructed plain_policy)).2).2) = ["gail"]
  ∧ ∀ k, k ∈ dict_keys (RewardSignal.update_dict curiosity_signal) →
         k ∈ dict_keys (update_dict
           (create_reward_signals create_reward_signal [("gail", 1)]
              (create_reward_signals create_reward_signal [("curiosity", 1)]
                 (constructed plain_policy)).2).2).
Proof.
  assert (dict_wf [("curiosity", 1)]) as Hwf1.
  { apply (bool_decide_unpack _). vm_compute. exact I. }
  assert (dict_wf [("gail", 1)]) as Hwf2.
  { apply (bool_decide_unpack _). vm_compute. exact I. }
  assert ((create_reward_signals create_reward_signal [("curiosity", 1)]
             (constructed plain_policy)).1 = Ok tt) as Hrun1 by (vm_compute; reflexivity).
  assert ((create_reward_signals create_reward_signal [("gail", 1)]
             (create_reward_signals create_reward_signal [("curiosity", 1)]
                (constructed plain_policy)).2).1 = Ok tt) as Hrun2
    by (vm_compute; reflexivity).
  split; [exact Hwf1|]. split; [exact Hwf2|]. split; [exact Hrun1|]. split; [exact Hrun2|].
  destruct (create_reward_signals_replaces_signals_extends_update_dict
              create_reward_signal [("curiosity", 1)] [("gail", 1)]
              (constructed plain_policy) _ _ tt tt Hwf1 Hwf2
              (run_eq _ _ _ Hrun1) (run_eq _ _ _ Hrun2))
    as (_ & Hkeys2 & _ & _ & Hsurvive & _).
  split; [exact Hkeys2|].
  intros k Hk. apply (Hsurvive "curiosity" curiosity_signal k); [reflexivity | exact Hk].
Defined.
End wiring_instances.

(** * Further properties of the methods *)

(** ** More on fallible folds *)

Lemma Forall2_dict_compose {A B C} (P : A → B → Prop) (Q : B → C → Prop)
    (d : dict string A) (r : dict string B) (s : dict string C) :
  Forall2 (λ x y, x.1 = y.1 ∧ P x.2 y.2) d r →
  Forall2 (λ y z, y.1 = z.1 ∧ Q y.2 z.2) r s →
  Forall2 (λ x z, x.1 = z.1 ∧ ∃ b, P x.2 b ∧ Q b z.2) d s.
Proof.
  intros Hdr. revert s. induction Hdr as [|x y d r [Hk HP] _ IH]; intros s Hrs.
  - inversion Hrs. constructor.
  - inversion Hrs as [|? z ? s' [Hk' HQ] Hrs']; subst.
    constructor; [|by apply IH]. split; [congruence | eauto].
Qed.

Lemma dict_comprehension_Raise {V W} (f : V → result W) (e0 : exn)
    (d : dict string V) (acc : dict string W) k v :
  (∀ x e, f x = Raise e → e = e0) →
  (k, v) ∈ d → (∀ w, f v ≠ Ok w) →
  rfold (λ acc kv, w <-? f kv.2 ;; Ok (dict_set kv.1 w acc)) acc d = Raise e0.
Proof.
  intros Hexn. revert acc. induction d as [|[k' v'] d IH]; intros acc Hin Hfail.
  - by apply elem_of_nil in Hin.
  - simpl. destruct (f v') as [w|e] eqn:Hfv; simpl.
    + apply elem_of_cons in Hin as [[= -> ->]|Hin].
      * by destruct (Hfail w).
      * by apply IH.
    + by rewrite (Hexn _ _ Hfv).
Qed.

Section zero_terminal_errors.
Context (signals : dict string RewardSignal).

Abbreviation zero_body :=
  (λ (estimates : dict string float) (k : string),
     signal <-? dict_getitem id k signals ;;
     if RewardSignal.use_terminal_states signal
     then Ok (dict_set k 0%float estimates)
     else Ok estimates).

Lemma zero_loop_total ks est :
  (∀ k, k ∈ ks → k ∈ dict_keys signals) →
  ∃ est', rfold zero_body est ks = Ok est'.
Proof.
  revert est. induction ks as [|k ks IH]; intros est Hreg; simpl; [by eauto|].
  assert (is_Some (dict_get k signals)) as [s Hs].
  { apply dict_get_Some_keys, Hreg. left. }
  unfold dict_getitem. rewrite Hs. simpl.
  destruct (RewardSignal.use_terminal_states s); simpl;
    apply IH; intros k' Hk'; apply Hreg; by right.
Qed.

Lemma zero_loop_KeyError ks est k :
  k ∈ ks → k ∉ dict_keys signals →
  ∃ k', k' ∈ ks ∧ (k' ∉ dict_keys signals)
        ∧ rfold zero_body est ks = Raise (KeyError k').
Proof.
  revert est. induction ks as [|k0 ks IH]; intros est Hin Hnot.
  - by apply elem_of_nil in Hin.
  - simpl. unfold dict_getitem.
    destruct (dict_get k0 signals) as [s|] eqn:Hs; simpl.
    + assert (k ∈ ks) as Hin'.
      { apply elem_of_cons in Hin as [->|?]; [|done].
        exfalso. apply Hnot, dict_get_Some_keys. by eauto. }
      destruct (RewardSignal.use_terminal_states s); simpl.
      * destruct (IH (dict_set k0 0%float est) Hin' Hnot) as (k' & Hk' & Hn' & Hr).
        exists k'. split_and!; [by right | done | done].
      * destruct (IH est Hin' Hnot) as (k' & Hk' & Hn' & Hr).
        exists k'. split_and!; [by right | done | done].
    + exists k0. split_and!; [left | by apply dict_get_None_keys | done].
Qed.
End zero_terminal_errors.

(** ** Bootstrap value estimation: runs, errors, values *)

Section value_estimates_more.
Context (from_observations : list ndarray → result SplitObservations).

Lemma get_value_estimates_final_state next_obs done pm vm pa w :
  (get_value_estimates from_observations next_obs done pm vm pa w).2 =
  match value_feed_dict from_observations (w_self w) next_obs pm vm pa with
  | Ok feed => logged (RunRecord (Single (FetchDict (value_heads (w_self w)))) feed) w
  | Raise _ => w
  end.
Proof.
  unfold get_value_estimates, bind, gets, lift, ret, sess_run, logged. simpl.
  destruct (value_feed_dict _ _ _ _ _ _) as [feed|e]; simpl; [|done].
  destruct (run_dict _ _ _) as [raw|e]; simpl; [|done].
  destruct (dict_comprehension _ _) as [floats|e]; simpl; [|done].
  by destruct done.
Qed.

Lemma get_value_estimates_eq next_obs done pm vm pa w :
  get_value_estimates from_observations next_obs done pm vm pa w =
  (value_estimates_of from_observations (w_self w) (graph (w_sess w))
     next_obs done pm vm pa,
   match value_feed_dict from_observations (w_self w) next_obs pm vm pa with
   | Ok feed => logged (RunRecord (Single (FetchDict (value_heads (w_self w)))) feed) w
   | Raise _ => w
   end).
Proof.
  rewrite (surjective_pairing (get_value_estimates _ _ _ _ _ _ w)).
  f_equal; [apply get_value_estimates_result | apply get_value_estimates_final_state].
Qed.

(** The feed is built from the policy and the optimizer's [memory_in]. *)
Lemma value_feed_dict_ext self1 self2 next_obs pm vm pa :
  policy self1 = policy self2 → memory_in self1 = memory_in self2 →
  value_feed_dict from_observations self1 next_obs pm vm pa =
  value_feed_dict from_observations self2 next_obs pm vm pa.
Proof. unfold value_feed_dict. by intros -> ->. Qed.

(** X1. [get_value_estimates] executes the graph exactly once whenever
    its feed can be built, for the dict of value heads and under that feed,
    also when the execution, the conversion to floats or the terminal-state
    loop then raises; when the feed cannot be built it raises that exception
    and leaves the whole state, record of runs included, as it was. *)
Theorem get_value_estimates_runs_once next_obs done pm vm pa w :
  match value_feed_dict from_observations (w_self w) next_obs pm vm pa with
  | Ok feed =>
      (get_value_estimates from_observations next_obs done pm vm pa w).2 =
      logged (RunRecord (Single (FetchDict (value_heads (w_self w)))) feed) w
  | Raise e =>
      get_value_estimates from_observations next_obs done pm vm pa w = (Raise e, w)
  end.
Proof.
  rewrite get_value_estimates_eq. unfold value_estimates_of.
  by destruct (value_feed_dict _ _ _ _ _ _).
Qed.

(** X2. With [done=False], [get_value_estimates] returns one entry per
    value head, in the order of [value_heads]: the float of what the head
    evaluates to under the feed of the call. The reward signals play no
    part: any state with the same policy, value heads, [memory_in] and
    graph gives this result, whatever its [reward_signals]. *)
Theorem get_value_estimates_nonterminal_values next_obs pm vm pa w w' est :
  dict_wf (value_heads (w_self w)) →
  get_value_estimates from_observations next_obs false pm vm pa w = (Ok est, w') →
  (∃ feed,
     value_feed_dict from_observations (w_self w) next_obs pm vm pa = Ok feed
     ∧ Forall2 (λ head entry,
                  head.1 = entry.1
                  ∧ ∃ v, graph (w_sess w) feed head.2 = Ok v ∧ to_float v = Ok entry.2)
         (value_heads (w_self w)) est)
  ∧ ∀ w2,
      policy (w_self w2) = policy (w_self w) →
      value_heads (w_self w2) = value_heads (w_self w) →
      memory_in (w_self w2) = memory_in (w_self w) →
      graph (w_sess w2) = graph (w_sess w) →
      (get_value_estimates from_observations next_obs false pm vm pa w2).1 = Ok est.
Proof.
  intros Hwf Hrun. rewrite get_value_estimates_eq in Hrun.
  injection Hrun as Hres _. split.
  - apply value_estimates_of_Ok in Hres as (feed & raw & floats & Hfeed & Hraw & Hfl & ->).
    exists feed. split; [done|]. apply run_dict_Ok in Hraw.
    pose proof (Forall2_keys (λ t v, graph (w_sess w) feed t = Ok v) _ _ Hraw) as Hkeys.
    assert (dict_wf raw) as Hwf_raw by (unfold dict_wf; by rewrite Hkeys).
    pose proof (dict_comprehension_wf _ _ _ Hwf_raw Hfl) as Hall.
    exact (Forall2_dict_compose (λ t v, graph (w_sess w) feed t = Ok v)
             (λ v x, to_float v = Ok x) _ _ _ Hraw Hall).
  - intros w2 Hpol Hheads Hmem Hgraph. rewrite get_value_estimates_eq. simpl.
    rewrite <- Hres. unfold value_estimates_of.
    by rewrite (value_feed_dict_ext _ _ _ _ _ _ Hpol Hmem), Hheads, Hgraph.
Qed.

(** X3. [done=True] adds one way to fail and nothing else: if the call
    with [done=False] returns, the call with [done=True] returns as well
    when every value head is named after a registered reward signal, and
    raises [KeyError] for a value head that is not, in the same final state. *)
Theorem get_value_estimates_terminal_KeyError next_obs pm vm pa w w' est :
  dict_wf (value_heads (w_self w)) →
  get_value_estimates from_observations next_obs false pm vm pa w = (Ok est, w') →
  ((∀ k, k ∈ dict_keys (value_heads (w_self w)) →
         k ∈ dict_keys (reward_signals (w_self w))) →
   ∃ est', get_value_estimates from_observations next_obs true pm vm pa w
           = (Ok est', w'))
  ∧ (∀ k, k ∈ dict_keys (value_heads (w_self w)) →
          k ∉ dict_keys (reward_signals (w_self w)) →
     ∃ k', k' ∈ dict_keys (value_heads (w_self w))
           ∧ (k' ∉ dict_keys (reward_signals (w_self w)))
           ∧ get_value_estimates from_observations next_obs true pm vm pa w
             = (Raise (KeyError k'), w')).
Proof.
  intros Hwf Hrun. rewrite get_value_estimates_eq in Hrun.
  injection Hrun as Hres Hst.
  apply value_estimates_of_Ok in Hres as (feed & raw & floats & Hfeed & Hraw & Hfl & ->).
  assert (∀ k, k ∈ dict_keys floats ↔ k ∈ dict_keys (value_heads (w_self w))) as Hkeys.
  { intros k. rewrite (dict_comprehension_keys _ _ _ _ Hfl).
    apply run_dict_Ok in Hraw.
    by rewrite (Forall2_keys (λ t v, graph (w_sess w) feed t = Ok v) _ _ Hraw). }
  assert (get_value_estimates from_observations next_obs true pm vm pa w
          = (zero_terminal_states (reward_signals (w_self w)) floats, w')) as Heq.
  { rewrite get_value_estimates_eq, Hst. f_equal. unfold value_estimates_of.
    rewrite Hfeed. simpl. rewrite Hraw. simpl. by rewrite Hfl. }
  rewrite Heq. unfold zero_terminal_states. split.
  - intros Hreg.
    destruct (zero_loop_total (reward_signals (w_self w)) (dict_keys floats) floats)
      as [est' Hest'].
    { intros k Hk. by apply Hreg, Hkeys. }
    exists est'. by rewrite Hest'.
  - intros k Hk Hnot.
    destruct (zero_loop_KeyError (reward_signals (w_self w)) (dict_keys floats) floats k)
      as (k' & Hk' & Hnot' & Hr); [by apply Hkeys | done |].
    exists k'. split_and!; [by apply Hkeys | done | by rewrite Hr].
Qed.

(** The loop over the visual observations stops at the first one that has
    no placeholder. *)
Lemma visual_feed_IndexError (placeholders : list handle) (vis : list ndarray)
    (n s : nat) (feed : feed_dict) :
  (s ≤ length placeholders)%nat → (length placeholders < s + n)%nat →
  (s + n ≤ length vis)%nat →
  rfold (λ feed i,
           obs <-? list_getitem vis i ;;
           ph <-? list_getitem placeholders i ;;
           Ok (dict_set ph (FList [obs]) feed))
        feed (seq s n) = Raise IndexError.
Proof.
  revert s feed. induction n as [|n IH]; intros s feed Hs Hlt Hvis; [lia|].
  simpl. unfold list_getitem at 1.
  destruct (lookup_lt_is_Some_2 vis s ltac:(lia)) as [obs ->]. simpl.
  unfold list_getitem at 1.
  destruct (decide (s = length placeholders)) as [->|Hne].
  - by rewrite (lookup_ge_None_2 placeholders (length placeholders)).
  - destruct (lookup_lt_is_Some_2 placeholders s ltac:(lia)) as [h ->]. simpl.
    apply IH; lia.
Qed.

(** X4. When the observation splits into more visual observations than
    the policy has visual placeholders, [get_value_estimates] raises
    [IndexError]; the graph is not executed and the state is as it was. *)
Theorem get_value_estimates_IndexError next_obs done pm vm pa w split :
  from_observations next_obs = Ok split →
  (length (Policy.visual_in (policy (w_self w)))
     < length (visual_observations split))%nat →
  get_value_estimates from_observations next_obs done pm vm pa w
    = (Raise IndexError, w).
Proof.
  intros Hsplit Hlen.
  assert (value_feed_dict from_observations (w_self w) next_obs pm vm pa
          = Raise IndexError) as Hfeed.
  { unfold value_feed_dict. rewrite Hsplit. simpl.
    rewrite visual_feed_IndexError; [done|lia..]. }
  rewrite get_value_estimates_eq. unfold value_estimates_of. by rewrite Hfeed.
Qed.

(** X5. A value head has to evaluate to an array of a single entry: when
    the graph evaluates every value head but one of the results has not
    exactly one entry, [get_value_estimates] raises [TypeError], after the
    one execution of the graph. *)
Theorem get_value_estimates_TypeError next_obs done pm vm pa w feed raw k v :
  value_feed_dict from_observations (w_self w) next_obs pm vm pa = Ok feed →
  run_dict (graph (w_sess w)) feed (value_heads (w_self w)) = Ok raw →
  (k, v) ∈ raw → length (data v) ≠ 1%nat →
  get_value_estimates from_observations next_obs done pm vm pa w
    = (Raise TypeError,
       logged (RunRecord (Single (FetchDict (value_heads (w_self w)))) feed) w).
Proof.
  intros Hfeed Hraw Hin Hlen. rewrite get_value_estimates_eq.
  unfold value_estimates_of. rewrite Hfeed. simpl. rewrite Hraw. simpl.
  unfold dict_comprehension.
  rewrite (dict_comprehension_Raise to_float TypeError raw [] k v); [done| |done|].
  - intros x e. unfold to_float. by destruct (data x) as [|? [|? ?]]; intros [= <-].
  - intros x. unfold to_float. destruct (data v) as [|? [|? ?]]; simpl in *; done.
Qed.
End value_estimates_more.

(** ** Trajectory value estimation: runs, errors, values *)

Section trajectory_more.
Context (from_observations : list ndarray → result SplitObservations).

(** The call, step by step: the feed, the batch run, the squeeze, the
    bootstrap call. *)
Lemma get_trajectory_value_estimates_eq next_obs done w :
  get_trajectory_value_estimates from_observations next_obs done w =
  match (trajectory_feed_dict (w_self w) w).1 with
  | Raise e => (Raise e, w)
  | Ok feed =>
      let w1 := logged (RunRecord (batch_fetches (w_self w)) feed) w in
      match batch_outputs (w_self w) (graph (w_sess w)) feed (w_batch w) with
      | Raise e => (Raise e, w1)
      | Ok (raw, pm, vm, pa) =>
          match dict_comprehension np_squeeze_axis1 raw with
          | Raise e => (Raise e, w1)
          | Ok traj =>
              match get_value_estimates from_observations next_obs done pm vm pa w1 with
              | (Ok boot, w2) => (Ok (traj, boot), w2)
              | (Raise e, w2) => (Raise e, w2)
              end
          end
      end
  end.
Proof.
  unfold get_trajectory_value_estimates, bind at 1, gets at 1. unfold bind at 1.
  pose proof (trajectory_feed_dict_state (w_self w) w) as Hst.
  destruct (trajectory_feed_dict (w_self w) w) as [[feed|e] s]; simpl in Hst; subst s;
    simpl; [|done].
  unfold batch_outputs, batch_fetches, bind, lift, ret, sess_run, buffer_getitem, logged.
  destruct (Policy.use_recurrent (policy (w_self w))); simpl.
  - destruct (run_dict _ _ _) as [raw|e]; simpl; [|done].
    destruct (graph (w_sess w) feed (Policy.memory_out _)) as [pmem|e]; simpl; [|done].
    destruct (graph (w_sess w) feed (memory_out _)) as [vmem|e]; simpl; [|done].
    destruct (dict_getitem id "actions" _) as [actions|e]; simpl; [|done].
    destruct (list_last actions) as [a|e]; simpl; [|done].
    destruct (dict_comprehension _ _) as [traj|e]; simpl; [|done].
    by destruct (get_value_estimates _ _ _ _ _ _ _) as [[boot|e] w2].
  - destruct (run_dict _ _ _) as [raw|e]; simpl; [|done].
    destruct (dict_comprehension _ _) as [traj|e]; simpl; [|done].
    by destruct (get_value_estimates _ _ _ _ _ _ _) as [[boot|e] w2].
Qed.

Lemma np_squeeze_axis1_Ok (v x : ndarray) :
  np_squeeze_axis1 v = Ok x →
  ∃ d0 rest, shape v = d0 :: 1%nat :: rest ∧ x = NDArray (d0 :: rest) (data v).
Proof.
  unfold np_squeeze_axis1.
  destruct (shape v) as [|d0 [|[|[|n]] rest]]; try done.
  intros [= <-]. by exists d0, rest.
Qed.

Lemma np_squeeze_axis1_Raise (v : ndarray) e :
  np_squeeze_axis1 v = Raise e → e = ValueError.
Proof.
  unfold np_squeeze_axis1.
  destruct (shape v) as [|d0 [|[|[|n]] rest]]; by intros [= <-].
Qed.

(** X6. A call of [get_trajectory_value_estimates] that returns has
    executed the graph exactly twice: first the batch run, under the feed
    built from the batch, then the run of [get_value_estimates], under the
    feed built from [next_obs]; nothing else in the state has changed. *)
Theorem get_trajectory_value_estimates_runs_twice next_obs done w traj boot w' :
  get_trajectory_value_estimates from_observations next_obs done w
    = (Ok (traj, boot), w') →
  ∃ feed pm vm pa bootstrap_feed,
    (trajectory_feed_dict (w_self w) w).1 = Ok feed
    ∧ value_feed_dict from_observations (w_self w) next_obs pm vm pa = Ok bootstrap_feed
    ∧ w' = logged (RunRecord (Single (FetchDict (value_heads (w_self w)))) bootstrap_feed)
             (logged (RunRecord (batch_fetches (w_self w)) feed) w).
Proof.
  rewrite get_trajectory_value_estimates_eq.
  destruct (trajectory_feed_dict (w_self w) w).1 as [feed|e]; [|done]. simpl.
  destruct (batch_outputs _ _ _ _) as [[[[raw pm] vm] pa]|e]; [|done].
  destruct (dict_comprehension _ _) as [traj'|e]; [|done].
  rewrite get_value_estimates_eq. simpl.
  destruct (value_estimates_of _ _ _ _ _ _ _ _) as [boot'|e] eqn:Hres; [|done].
  intros [= <- <- <-]. exists feed, pm, vm, pa.
  unfold value_estimates_of in Hres.
  destruct (value_feed_dict _ _ _ _ _ _) as [bfeed|e]; [|done].
  by exists bfeed.
Qed.

(** X7. When the feed of the batch run cannot be built (a field of the
    batch is missing, or a memory size is negative),
    [get_trajectory_value_estimates] raises that exception without having
    executed the graph, and the state is as it was. *)
Theorem get_trajectory_value_estimates_feed_error next_obs done w e :
  (trajectory_feed_dict (w_self w) w).1 = Raise e →
  get_trajectory_value_estimates from_observations next_obs done w = (Raise e, w).
Proof. intros Hfeed. by rewrite get_trajectory_value_estimates_eq, Hfeed. Qed.

(** X8. For a recurrent policy and a batch whose field ["actions"] is
    empty, [get_trajectory_value_estimates] raises [IndexError] once the
    batch run has succeeded: the graph has been executed once, and
    [get_value_estimates] is not reached. *)
Theorem get_trajectory_value_estimates_no_actions next_obs done w feed raw pmem vmem :
  Policy.use_recurrent (policy (w_self w)) = true →
  (trajectory_feed_dict (w_self w) w).1 = Ok feed →
  run_dict (graph (w_sess w)) feed (value_heads (w_self w)) = Ok raw →
  graph (w_sess w) feed (Policy.memory_out (policy (w_self w))) = Ok pmem →
  graph (w_sess w) feed (memory_out (w_self w)) = Ok vmem →
  dict_get "actions" (buffer_fields (w_batch w)) = Some [] →
  get_trajectory_value_estimates from_observations next_obs done w
    = (Raise IndexError, logged (RunRecord (batch_fetches (w_self w)) feed) w).
Proof.
  intros Hrec Hfeed Hraw Hp Hv Hacts.
  rewrite get_trajectory_value_estimates_eq, Hfeed. simpl.
  unfold batch_outputs, dict_getitem. rewrite Hrec, Hraw. simpl.
  rewrite Hp. simpl. rewrite Hv. simpl. by rewrite Hacts.
Qed.

(** X9. The output of a value head for the batch has to have an axis 1 of
    length one: when the batch run succeeds but one of the head outputs has
    another shape, [get_trajectory_value_estimates] raises [ValueError]
    after that one execution of the graph, before [get_value_estimates]. *)
Theorem get_trajectory_value_estimates_ValueError next_obs done w feed raw pm vm pa k v :
  (trajectory_feed_dict (w_self w) w).1 = Ok feed →
  batch_outputs (w_self w) (graph (w_sess w)) feed (w_batch w) = Ok (raw, pm, vm, pa) →
  (k, v) ∈ raw → (∀ d0 rest, shape v ≠ d0 :: 1%nat :: rest) →
  get_trajectory_value_estimates from_observations next_obs done w
    = (Raise ValueError, logged (RunRecord (batch_fetches (w_self w)) feed) w).
Proof.
  intros Hfeed Hout Hin Hshape.
  rewrite get_trajectory_value_estimates_eq, Hfeed. simpl. rewrite Hout.
  unfold dict_comprehension.
  rewrite (dict_comprehension_Raise np_squeeze_axis1 ValueError raw [] k v); [done| |done|].
  - intros x e. apply np_squeeze_axis1_Raise.
  - intros x Hx. apply np_squeeze_axis1_Ok in Hx as (d0 & rest & Hs & _).
    by apply (Hshape d0 rest).
Qed.

(** X10. For a policy that is not recurrent the bootstrap estimate does
    not depend on the batch: it is what [get_value_estimates(next_obs, done)]
    returns on its own, in the state before the call and in any state with
    the same optimizer object and the same graph. *)
Theorem get_trajectory_value_estimates_bootstrap_alone next_obs done w traj boot w' :
  Policy.use_recurrent (policy (w_self w)) = false →
  get_trajectory_value_estimates from_observations next_obs done w
    = (Ok (traj, boot), w') →
  ∀ w2, w_self w2 = w_self w → graph (w_sess w2) = graph (w_sess w) →
        (get_value_estimates from_observations next_obs done None None None w2).1
          = Ok boot.
Proof.
  intros Hrec. rewrite get_trajectory_value_estimates_eq.
  destruct (trajectory_feed_dict (w_self w) w).1 as [feed|e]; [|done]. simpl.
  unfold batch_outputs. rewrite Hrec.
  destruct (run_dict _ _ _) as [raw|e]; [|done]. simpl.
  destruct (dict_comprehension _ _) as [traj'|e]; [|done].
  rewrite get_value_estimates_eq. simpl.
  destruct (value_estimates_of _ _ _ _ _ _ _ _) as [boot'|e] eqn:Hres; [|done].
  intros [= <- <- <-] w2 Hself Hgraph.
  rewrite get_value_estimates_result. by rewrite Hself, Hgraph.
Qed.

(** X11. [get_trajectory_value_estimates] changes neither the optimizer
    object nor what the graph computes, whether it returns or raises. *)
Theorem get_trajectory_value_estimates_keeps_optimizer next_obs done w :
  w_self (get_trajectory_value_estimates from_observations next_obs done w).2 = w_self w
  ∧ graph (w_sess (get_trajectory_value_estimates from_observations next_obs done w).2)
    = graph (w_sess w).
Proof.
  split.
  - revert w. change (frame w_self
      (get_trajectory_value_estimates from_observations next_obs done)).
    unfold get_trajectory_value_estimates, trajectory_feed_dict.
    pose proof (get_value_estimates_frame_self from_observations). frame_solver.
  - revert w. change (frame (λ w, graph (w_sess w))
      (get_trajectory_value_estimates from_observations next_obs done)).
    unfold get_trajectory_value_estimates, trajectory_feed_dict.
    pose proof (get_value_estimates_frame_graph from_observations). frame_solver.
Qed.

Lemma batch_outputs_raw self g feed batch raw pm vm pa :
  batch_outputs self g feed batch = Ok (raw, pm, vm, pa) →
  run_dict g feed (value_heads self) = Ok raw.
Proof.
  unfold batch_outputs. destruct (Policy.use_recurrent (policy self)).
  - destruct (run_dict _ _ _) as [raw'|e]; simpl; [|done].
    destruct (g feed (Policy.memory_out _)); simpl; [|done].
    destruct (g feed (memory_out _)); simpl; [|done].
    destruct (dict_getitem _ _ _); simpl; [|done].
    destruct (list_last _); simpl; [|done]. by intros [= <- _ _ _].
  - destruct (run_dict _ _ _) as [raw'|e]; simpl; [|done]. by intros [= <- _ _ _].
Qed.

(** X12. The per-timestep estimates that [get_trajectory_value_estimates]
    returns are the outputs of the value heads for the batch with axis 1
    removed: one entry per value head, in the order of [value_heads], with
    the data of the head output and its shape without the axis of length
    one. *)
Theorem get_trajectory_value_estimates_squeezed next_obs done w traj boot w' :
  dict_wf (value_heads (w_self w)) →
  get_trajectory_value_estimates from_observations next_obs done w
    = (Ok (traj, boot), w') →
  ∃ feed,
    (trajectory_feed_dict (w_self w) w).1 = Ok feed
    ∧ Forall2 (λ head entry,
                 head.1 = entry.1
                 ∧ ∃ v, graph (w_sess w) feed head.2 = Ok v
                        ∧ ∃ d0 rest, shape v = d0 :: 1%nat :: rest
                                     ∧ entry.2 = NDArray (d0 :: rest) (data v))
        (value_heads (w_self w)) traj.
Proof.
  intros Hwf. rewrite get_trajectory_value_estimates_eq.
  destruct (trajectory_feed_dict (w_self w) w).1 as [feed|e]; [|done]. simpl.
  destruct (batch_outputs _ _ _ _) as [[[[raw pm] vm] pa]|e] eqn:Hout; [|done].
  destruct (dict_comprehension _ _) as [traj'|e] eqn:Hsq; [|done].
  destruct (get_value_estimates _ _ _ _ _ _ _) as [[boot'|e] w2]; [|done].
  intros [= <- <- <-]. exists feed. split; [done|].
  apply batch_outputs_raw, run_dict_Ok in Hout.
  pose proof (Forall2_keys (λ t v, graph (w_sess w) feed t = Ok v) _ _ Hout) as Hkeys.
  assert (dict_wf raw) as Hwf_raw by (unfold dict_wf; by rewrite Hkeys).
  pose proof (dict_comprehension_wf _ _ _ Hwf_raw Hsq) as Hall.
  pose proof (Forall2_dict_compose (λ t v, graph (w_sess w) feed t = Ok v)
                (λ v x, np_squeeze_axis1 v = Ok x) _ _ _ Hout Hall) as Hboth.
  eapply Forall2_impl; [exact Hboth|].
  intros head entry [Hk (v & Hv & Hx)]. split; [done|]. exists v. split; [done|].
  by apply np_squeeze_axis1_Ok.
Qed.
End trajectory_more.

(** ** The feed of the batch run *)

Lemma np_zeros_Ok (n : Z) (z : ndarray) :
  np_zeros n = Ok z →
  0 ≤ n ∧ z = NDArray [Z.to_nat n] (replicate (Z.to_nat n) 0%float).
Proof.
  unfold np_zeros. destruct (decide (n < 0)); [done|].
  intros [= <-]. split; [lia | done].
Qed.

(** X13. For a recurrent policy the batch run starts from zero memory:
    when the feed can be built, both memory sizes are non-negative, the
    feed holds a list of one vector of [m_size] zeros under the optimizer's
    [memory_in], and a list of one vector of the policy's [m_size] zeros
    under the policy's [memory_in], provided no placeholder assigned later
    (the other [memory_in], the previous action) is the same handle. *)
Theorem trajectory_feed_dict_zero_memory (self : TFOptimizer) (w : world) (feed : feed_dict) :
  Policy.use_recurrent (policy self) = true →
  (trajectory_feed_dict self w).1 = Ok feed →
  0 ≤ Policy.m_size (policy self) ∧ 0 ≤ m_size self
  ∧ ((Policy.prev_action (policy self) = None
      ∨ Policy.prev_action (policy self) ≠ memory_in self) →
     dict_get (memory_in self) feed
     = Some (FList [NDArray [Z.to_nat (m_size self)]
                      (replicate (Z.to_nat (m_size self)) 0%float)]))
  ∧ ((Policy.prev_action (policy self) = None
      ∨ Policy.prev_action (policy self) ≠ Policy.memory_in (policy self)) →
     Policy.memory_in (policy self) ≠ memory_in self →
     dict_get (Policy.memory_in (policy self)) feed
     = Some (FList [NDArray [Z.to_nat (Policy.m_size (policy self))]
                      (replicate (Z.to_nat (Policy.m_size (policy self))) 0%float)])).
Proof.
  intros Hrec Hfeed.
  destruct (trajectory_feed_dict self w) as [r s] eqn:Hrun. simpl in Hfeed. subst r.
  unfold trajectory_feed_dict in Hrun. rewrite Hrec in Hrun.
  apply bind_Ok in Hrun as (n & s0 & _ & Hrun).
  apply bind_Ok in Hrun as (feed1 & s1 & _ & Hrun).
  apply bind_Ok in Hrun as (feed2 & s2 & _ & Hrun).
  apply bind_Ok in Hrun as (feed3 & s3 & Hmem & Hrun).
  apply bind_Ok in Hmem as (zp & s4 & [Hzp ->]%lift_Ok & Hmem).
  apply bind_Ok in Hmem as (zv & s5 & [Hzv ->]%lift_Ok & [-> ->]%ret_Ok).
  apply np_zeros_Ok in Hzp as [Hp ->]. apply np_zeros_Ok in Hzv as [Hv ->].
  split; [done|]. split; [done|].
  destruct (Policy.prev_action (policy self)) as [t|] eqn:Hprev.
  - apply bind_Ok in Hrun as (acts & s6 & _ & [-> ->]%ret_Ok). split.
    + intros [?|Hne]; [done|]. rewrite dict_get_set_ne by done.
      apply dict_get_set_eq.
    + intros [?|Hne] Hne'; [done|]. rewrite dict_get_set_ne by done.
      rewrite dict_get_set_ne by done. apply dict_get_set_eq.
  - apply ret_Ok in Hrun as [-> ->]. split.
    + intros _. apply dict_get_set_eq.
    + intros _ Hne'. rewrite dict_get_set_ne by done. apply dict_get_set_eq.
Qed.

(** ** Wiring and construction: failure and what is left untouched *)

Section wiring_more.
Context {config : Type}.
Context (create_reward_signal : TFPolicy → string → config → result RewardSignal).

Abbreviation wiring_step := (create_reward_signals_step create_reward_signal).
Abbreviation contributed :=
  (λ (ud : dict string tensor) (ns : string * RewardSignal),
     dict_update ud (RewardSignal.update_dict ns.2)).

Lemma create_loop_frame {X} (f : TFOptimizer → X) rest self :
  (∀ rs s, f (set_reward_signals rs s) = f s) →
  (∀ ud s, f (set_update_dict ud s) = f s) →
  f (for_each rest wiring_step self).2 = f self.
Proof.
  intros Hrs Hud. revert self.
  induction rest as [|item rest IH]; intros self; simpl; [done|].
  unfold bind. rewrite create_reward_signals_step_eq.
  destruct (create_reward_signal _ _ _) as [signal|e]; simpl; [|done].
  by rewrite IH, Hud, Hrs.
Qed.

Lemma create_reward_signals_frame {X} (f : TFOptimizer → X) configs self :
  (∀ rs s, f (set_reward_signals rs s) = f s) →
  (∀ ud s, f (set_update_dict ud s) = f s) →
  f (create_reward_signals create_reward_signal configs self).2 = f self.
Proof.
  intros Hrs Hud. unfold create_reward_signals, bind, modify. simpl.
  by rewrite create_loop_frame, Hrs.
Qed.

Lemma create_loop_Raise pre name cfg post self e :
  NoDup (dict_keys (reward_signals self) ++ dict_keys pre) →
  Forall (λ item, ∃ s, create_reward_signal (policy self) item.1 item.2 = Ok s) pre →
  create_reward_signal (policy self) name cfg = Raise e →
  ∃ self' new,
    for_each (pre ++ (name, cfg) :: post) wiring_step self = (Raise e, self')
    ∧ reward_signals self' = reward_signals self ++ new
    ∧ Forall2 (λ nc ns, nc.1 = ns.1 ∧
                 create_reward_signal (policy self) nc.1 nc.2 = Ok ns.2) pre new
    ∧ update_dict self' = foldl contributed (update_dict self) new.
Proof.
  revert self. induction pre as [|[n c] pre IH]; intros self Hnd Hpre Hfail; simpl.
  - unfold bind. rewrite create_reward_signals_step_eq. simpl. rewrite Hfail.
    exists self, []. split_and!; [done | by rewrite app_nil_r | constructor | done].
  - unfold bind. rewrite create_reward_signals_step_eq. simpl.
    apply Forall_cons in Hpre as [[s Hs] Hpre]. simpl in Hs. rewrite Hs.
    assert (n ∉ dict_keys (reward_signals self)) as Hfresh.
    { unfold dict_keys in *. simpl in Hnd.
      apply NoDup_app in Hnd as (_ & Hdisj & _).
      intros Hin. apply (Hdisj n Hin). left. }
    set (self1 := set_update_dict _ _).
    destruct (IH self1) as (self' & new & Hrun & Hrs & Hall & Hud).
    + unfold self1. simpl. rewrite dict_set_notin by done.
      unfold dict_keys in *. rewrite fmap_app. simpl in *. by rewrite <- app_assoc.
    + done.
    + done.
    + exists self', ((n, s) :: new). unfold self1 in Hrs, Hud. simpl in Hrs, Hud.
      rewrite dict_set_notin in Hrs by done.
      split_and!; [done | by rewrite Hrs, <- app_assoc | by constructor | done].
Qed.

Lemma dict_update_keys_elem (d d2 : dict string tensor) k :
  k ∈ dict_keys (dict_update d d2) ↔ k ∈ dict_keys d ∨ k ∈ dict_keys d2.
Proof.
  unfold dict_update. revert d. induction d2 as [|[k' v'] d2 IH]; intros d; simpl.
  - unfold dict_keys. simpl. rewrite elem_of_nil. naive_solver.
  - rewrite IH, dict_keys_set_elem. unfold dict_keys. simpl.
    rewrite elem_of_cons. naive_solver.
Qed.

Lemma contributed_keys_elem (new : dict string RewardSignal) ud k :
  k ∈ dict_keys (foldl contributed ud new) ↔
  k ∈ dict_keys ud ∨ ∃ name s, (name, s) ∈ new ∧ k ∈ dict_keys (RewardSignal.update_dict s).
Proof.
  revert ud. induction new as [|[n s] new IH]; intros ud; simpl.
  - split; [by left|]. intros [?|(? & ? & ?%elem_of_nil & _)]; done.
  - rewrite IH, dict_update_keys_elem. split.
    + intros [[?|?]|(n' & s' & Hin & Hk)]; [by left | | ].
      * right. exists n, s. split; [left | done].
      * right. exists n', s'. split; [by right | done].
    + intros [?|(n' & s' & Hin & Hk)]; [by left; left|].
      apply elem_of_cons in Hin as [[= -> ->]|Hin].
      * left. by right.
      * right. by exists n', s'.
Qed.

(** X14. When the factory refuses one of the configured signals,
    [create_reward_signals] raises the factory's exception and leaves the
    optimizer half wired: [reward_signals] holds exactly the signals
    configured before the refused one, in order, and [update_dict] has been
    extended by the update targets of these and keeps all its earlier keys. *)
Theorem create_reward_signals_partial (pre post : dict string config) name cfg
    (self : TFOptimizer) e :
  dict_wf pre →
  Forall (λ item, ∃ s, create_reward_signal (policy self) item.1 item.2 = Ok s) pre →
  create_reward_signal (policy self) name cfg = Raise e →
  ∃ self',
    create_reward_signals create_reward_signal (pre ++ (name, cfg) :: post) self
      = (Raise e, self')
    ∧ dict_keys (reward_signals self') = dict_keys pre
    ∧ Forall2 (λ nc ns, nc.1 = ns.1 ∧
                 create_reward_signal (policy self) nc.1 nc.2 = Ok ns.2)
        pre (reward_signals self')
    ∧ ∀ k, k ∈ dict_keys (update_dict self') ↔
           k ∈ dict_keys (update_dict self)
           ∨ ∃ name' s, (name', s) ∈ reward_signals self'
                        ∧ k ∈ dict_keys (RewardSignal.update_dict s).
Proof.
  intros Hwf Hpre Hfail.
  destruct (create_loop_Raise pre name cfg post (set_reward_signals [] self) e)
    as (self' & new & Hrun & Hrs & Hall & Hud); [done..|].
  simpl in *. subst new. exists self'.
  unfold create_reward_signals, bind, modify. simpl. rewrite Hrun.
  split_and!; [done | | done | ].
  - apply (Forall2_keys
      (λ (c : config) s, ∃ n, create_reward_signal (policy self) n c = Ok s)).
    eapply Forall2_impl; [exact Hall|]. naive_solver.
  - intros k. rewrite Hud. apply contributed_keys_elem.
Qed.

(** X15. [create_reward_signals] assigns [reward_signals] and
    [update_dict] and nothing else: the policy, the value heads, both
    memory tensors and the memory size of the optimizer are as before,
    whether it returns or raises. In particular the value heads are not
    brought in line with a new set of reward signals. *)
Theorem create_reward_signals_keeps_heads (configs : dict string config)
    (self : TFOptimizer) :
  policy (create_reward_signals create_reward_signal configs self).2 = policy self
  ∧ value_heads (create_reward_signals create_reward_signal configs self).2
    = value_heads self
  ∧ memory_in (create_reward_signals create_reward_signal configs self).2
    = memory_in self
  ∧ memory_out (create_reward_signals create_reward_signal configs self).2
    = memory_out self
  ∧ m_size (create_reward_signals create_reward_signal configs self).2 = m_size self.
Proof.
  split_and!.
  - by apply (create_reward_signals_frame policy).
  - by apply (create_reward_signals_frame value_heads).
  - by apply (create_reward_signals_frame memory_in).
  - by apply (create_reward_signals_frame memory_out).
  - by apply (create_reward_signals_frame m_size).
Qed.

(** X16. An optimizer that [TFOptimizer.__init__] returns has the given
    policy, no value heads, no memory tensors and memory size 0; its
    [reward_signals] has the configured names, in order, each with the
    signal the factory made for it; and the keys of its [update_dict] are
    exactly the update targets of its signals. *)
Theorem TFOptimizer_init_result pol (trainer_params : dict string (trainer_param config))
    (configs : dict string config) (self : TFOptimizer) :
  dict_get "reward_signals" trainer_params = Some (ParamConfigs configs) →
  dict_wf configs →
  TFOptimizer_init create_reward_signal (Some pol) trainer_params = Ok self →
  policy self = pol ∧ value_heads self = []
  ∧ memory_in self = None ∧ memory_out self = None ∧ m_size self = 0
  ∧ dict_keys (reward_signals self) = dict_keys configs
  ∧ Forall2 (λ nc ns, nc.1 = ns.1 ∧ create_reward_signal pol nc.1 nc.2 = Ok ns.2)
      configs (reward_signals self)
  ∧ ∀ k, k ∈ dict_keys (update_dict self) ↔
         ∃ name s, (name, s) ∈ reward_signals self
                   ∧ k ∈ dict_keys (RewardSignal.update_dict s).
Proof.
  intros Hparam Hwf. unfold TFOptimizer_init, dict_getitem. simpl. rewrite Hparam. simpl.
  destruct (create_reward_signals _ _ _) as [[u|e] self1] eqn:Hrun; [|done].
  intros [= <-]. simpl.
  destruct (create_reward_signals_Ok _ _ _ _ _ Hwf Hrun) as (Hkeys & Hall & Hud & Hpol).
  pose proof (create_reward_signals_frame value_heads configs
    {| policy := pol; update_dict := []; value_heads := [];
       reward_signals := []; memory_in := None; memory_out := None;
       m_size := 0 |} ltac:(done) ltac:(done)) as Hheads.
  rewrite Hrun in Hheads. simpl in *. split_and!; try done.
  intros k. rewrite Hud, contributed_keys_elem. unfold dict_keys. simpl.
  rewrite elem_of_nil. naive_solver.
Qed.

(** X17. [TFOptimizer.__init__] with a policy fails with [KeyError] when
    [trainer_params] has no entry ["reward_signals"], and with the
    factory's exception when the factory refuses one of the configured
    signals: no optimizer is returned. *)
Theorem TFOptimizer_init_errors pol (trainer_params : dict string (trainer_param config)) :
  (dict_get "reward_signals" trainer_params = None →
   TFOptimizer_init create_reward_signal (Some pol) trainer_params
     = Raise (KeyError "reward_signals"))
  ∧ ∀ pre name cfg post e,
      dict_get "reward_signals" trainer_params
        = Some (ParamConfigs (pre ++ (name, cfg) :: post)) →
      dict_wf pre →
      Forall (λ item, ∃ s, create_reward_signal pol item.1 item.2 = Ok s) pre →
      create_reward_signal pol name cfg = Raise e →
      TFOptimizer_init create_reward_signal (Some pol) trainer_params = Raise e.
Proof.
  split.
  - intros Hnone. unfold TFOptimizer_init, dict_getitem. simpl. by rewrite Hnone.
  - intros pre name cfg post e Hparam Hwf Hpre Hfail.
    unfold TFOptimizer_init, dict_getitem. simpl. rewrite Hparam. simpl.
    destruct (create_loop_Raise pre name cfg post
      (set_reward_signals []
         {| policy := pol; update_dict := []; value_heads := [];
            reward_signals := []; memory_in := None; memory_out := None;
            m_size := 0 |}) e) as (self' & new & Hrun & _); [done..|].
    unfold create_reward_signals, bind, modify. simpl. simpl in Hrun. by rewrite Hrun.
Qed.
End wiring_more.

(** ** The helpers: bounds and outcomes *)

Lemma rmap_total {A B} (f : A → result B) (l : list A) :
  Forall (λ x, ∃ y, f x = Ok y) l → ∃ l', rmap f l = Ok l'.
Proof.
  induction 1 as [|x l [y Hy] _ [l' IH]]; simpl; [by eauto|].
  rewrite Hy, IH. simpl. by eauto.
Qed.

(** X18. The bounds of [_make_zero_mem]: a policy sequence length of 0
    makes it raise [ValueError]; a positive sequence length with a length
    that is not positive, and a negative sequence length with a length that
    is not negative, give the empty list, whatever [m_size] is; a negative
    [m_size] raises [ValueError] as soon as there is a vector to make. It
    never changes the state. *)
Theorem make_zero_mem_bounds (m_size length : Z) (w : world) :
  (_make_zero_mem m_size length w).2 = w
  ∧ (Policy.sequence_length (policy (w_self w)) = 0 →
     _make_zero_mem m_size length w = (Raise ValueError, w))
  ∧ (0 < Policy.sequence_length (policy (w_self w)) → length ≤ 0 →
     _make_zero_mem m_size length w = (Ok [], w))
  ∧ (Policy.sequence_length (policy (w_self w)) < 0 → 0 ≤ length →
     _make_zero_mem m_size length w = (Ok [], w))
  ∧ (0 < Policy.sequence_length (policy (w_self w)) → 0 < length → m_size < 0 →
     _make_zero_mem m_size length w = (Raise ValueError, w)).
Proof.
  set (step := Policy.sequence_length (policy (w_self w))).
  split_and!.
  - unfold _make_zero_mem, bind, gets, lift. simpl.
    by destruct (py_range _ _ _).
  - intros Hstep. unfold _make_zero_mem, bind, gets, lift, py_range. simpl.
    fold step. by rewrite decide_True.
  - intros Hstep Hlen. unfold _make_zero_mem, bind, gets, lift, py_range. simpl.
    fold step. rewrite decide_False by lia. rewrite decide_True by lia.
    by rewrite decide_False by lia.
  - intros Hstep Hlen. unfold _make_zero_mem, bind, gets, lift, py_range. simpl.
    fold step. rewrite decide_False by lia. rewrite decide_False by lia.
    by rewrite decide_False by lia.
  - intros Hstep Hlen Hm. unfold _make_zero_mem, bind, gets, lift, py_range. simpl.
    fold step. rewrite decide_False by lia. rewrite decide_True by lia.
    rewrite decide_True by lia.
    assert (0 ≤ (length - 0 - 1) / step) as Hq by (apply Z.div_pos; lia).
    destruct (Z.to_nat ((length - 0 - 1) / step + 1)) as [|n] eqn:Hn; [lia|].
    simpl. unfold np_zeros. by rewrite decide_True.
Qed.

(** X19. [_execute_model] calls [sess.run] exactly once in every case,
    for the list of the tensors of [out_dict] under [feed_dict], and changes
    nothing else in the state. It returns if and only if every tensor of
    [out_dict] evaluates under [feed_dict]: pairing the keys with the
    results and building the dict never fails, so the only way for it to
    raise is for that call to raise. *)
Theorem execute_model_outcome (feed : feed_dict) (out_dict : dict string handle)
    (w : world) :
  (_execute_model feed out_dict w).2
    = logged (RunRecord (Several (map FetchTensor (dict_values out_dict))) feed) w
  ∧ ((∃ run_out, (_execute_model feed out_dict w).1 = Ok run_out) ↔
     Forall (λ kt, ∃ v, graph (w_sess w) feed kt.2 = Ok v) out_dict).
Proof.
  assert (∀ hs os,
            rmap (λ h, run_fetch (graph (w_sess w)) feed (FetchTensor h)) hs = Ok os →
            ∃ vs, rmap as_array os = Ok vs) as Harrays.
  { intros hs os Hos. apply rmap_total. apply rmap_Ok_Forall2 in Hos.
    induction Hos as [|h o hs os Ho _ IH]; constructor; [|done].
    apply rbind_Ok in Ho as (a & _ & [= <-]). by exists a. }
  unfold _execute_model, bind, lift, ret, sess_run, logged. simpl.
  rewrite rmap_map. split.
  - destruct (rmap _ _) as [os|e]; simpl; [|done].
    by destruct (rmap as_array os).
  - split.
    + intros [run_out Hrun].
      destruct (rmap _ (dict_values out_dict)) as [os|e] eqn:Hos; simpl in Hrun; [|done].
      apply rmap_Ok_Forall2 in Hos. clear Hrun Harrays. unfold dict_values in Hos.
      revert os Hos. induction out_dict as [|[k t] d IH]; intros os Hos; [constructor|].
      rewrite fmap_cons in Hos. inversion Hos as [|? o ? os' Ho Hos']; subst.
      constructor; [|by eapply IH].
      apply rbind_Ok in Ho as (a & Ha & _). by exists a.
    + intros Hall.
      destruct (rmap_total (λ h, run_fetch (graph (w_sess w)) feed (FetchTensor h))
                  (dict_values out_dict)) as [os Hos].
      { unfold dict_values. apply Forall_fmap. eapply Forall_impl; [exact Hall|].
        intros [k t] [v Hv]. simpl in *. rewrite Hv. simpl. by eauto. }
      rewrite Hos. simpl. destruct (Harrays _ _ Hos) as [vs ->]. simpl. by eauto.
Qed.

(** ** The further properties at concrete inputs *)

Section more_instances.
Import Scenario.

Lemma get_value_estimates_nonterminal_values_witness :
  dict_wf (value_heads (w_self (state (optimizer plain_policy) batch)))
  ∧ get_value_estimates from_observations [observation] false None None None
        (state (optimizer plain_policy) batch)
      = (Ok [("extrinsic", 0.5%float); ("curiosity", 0.5%float)],
         (get_value_estimates from_observations [observation] false None None None
            (state (optimizer plain_policy) batch)).2)
  ∧ (get_value_estimates from_observations [observation] false None None None
       (state (unregistered_head_optimizer plain_policy) empty_batch)).1
    = Ok [("extrinsic", 0.5%float); ("curiosity", 0.5%float)].
Proof.
  assert (dict_wf (value_heads (w_self (state (optimizer plain_policy) batch)))) as Hwf.
  { apply (bool_decide_unpack _). vm_compute. exact I. }
  assert (get_value_estimates from_observations [observation] false None None None
            (state (optimizer plain_policy) batch)
          = (Ok [("extrinsic", 0.5%float); ("curiosity", 0.5%float)],
             (get_value_estimates from_observations [observation] false None None None
                (state (optimizer plain_policy) batch)).2)) as Hrun.
  { apply run_eq. vm_compute. reflexivity. }
  split; [exact Hwf|]. split; [exact Hrun|].
  destruct (get_value_estimates_nonterminal_values from_observations [observation]
              None None None (state (optimizer plain_policy) batch) _ _ Hwf Hrun)
    as [_ Hany].
  exact (Hany (state (unregistered_head_optimizer plain_policy) empty_batch)
           eq_refl eq_refl eq_refl eq_refl).
Defined.

Lemma get_value_estimates_terminal_KeyError_witness :
  dict_wf (value_heads (w_self (state (unregistered_head_optimizer plain_policy) batch)))
  ∧ get_value_estimates from_observations [observation] false None None None
        (state (unregistered_head_optimizer plain_policy) batch)
      = (Ok [("extrinsic", 0.5%float); ("curiosity", 0.5%float)],
         (get_value_estimates from_observations [observation] false None None None
            (state (unregistered_head_optimizer plain_policy) batch)).2)
  ∧ "curiosity" ∈ dict_keys (value_heads (unregistered_head_optimizer plain_policy))
  ∧ ("curiosity" ∉ dict_keys (reward_signals (unregistered_head_optimizer plain_policy)))
  ∧ ∃ k', k' ∈ dict_keys (value_heads (unregistered_head_optimizer plain_policy))
          ∧ (k' ∉ dict_keys (reward_signals (unregistered_head_optimizer plain_policy)))
          ∧ get_value_estimates from_observations [observation] true None None None
              (state (unregistered_head_optimizer plain_policy) batch)
            = (Raise (KeyError k'),
               (get_value_estimates from_observations [observation] false None None None
                  (state (unregistered_head_optimizer plain_policy) batch)).2).
Proof.
  assert (dict_wf (value_heads
            (w_self (state (unregistered_head_optimizer plain_policy) batch)))) as Hwf.
  { apply (bool_decide_unpack _). vm_compute. exact I. }
  assert (get_value_estimates from_observations [observation] false None None None
            (state (unregistered_head_optimizer plain_policy) batch)
          = (Ok [("extrinsic", 0.5%float); ("curiosity", 0.5%float)],
             (get_value_estimates from_observations [observation] false None None None
                (state (unregistered_head_optimizer plain_policy) batch)).2)) as Hrun.
  { apply run_eq. vm_compute. reflexivity. }
  assert ("curiosity" ∈ dict_keys (value_heads (unregistered_head_optimizer plain_policy)))
    as Hin.
  { apply (bool_decide_unpack _). vm_compute. exact I. }
  assert ("curiosity" ∉ dict_keys (reward_signals (unregistered_head_optimizer plain_policy)))
    as Hnot.
  { apply (bool_decide_unpack _). vm_compute. exact I. }
  split; [exact Hwf|]. split; [exact Hrun|]. split; [exact Hin|]. split; [exact Hnot|].
  destruct (get_value_estimates_terminal_KeyError from_observations [observation]
              None None None (state (unregistered_head_optimizer plain_policy) batch)
              _ _ Hwf Hrun) as [_ Hkey].
  exact (Hkey "curiosity" Hin Hnot).
Defined.

Lemma get_value_estimates_IndexError_witness :
  from_observations [observation; image]
    = Ok {| vector_observations := observation; visual_observations := [image] |}
  ∧ (length (Policy.visual_in (policy (w_self (state (optimizer plain_policy) batch))))
       < length [image])%nat
  ∧ get_value_estimates from_observations [observation; image] true None None None
        (state (optimizer plain_policy) batch)
    = (Raise IndexError, state (optimizer plain_policy) batch).
Proof.
  assert (from_observations [observation; image]
          = Ok {| vector_observations := observation; visual_observations := [image] |})
    as Hsplit by (vm_compute; reflexivity).
  assert ((length (Policy.visual_in
                     (policy (w_self (state (optimizer plain_policy) batch))))
             < length [image])%nat) as Hlen by (simpl; lia).
  split; [exact Hsplit|]. split; [exact Hlen|].
  exact (get_value_estimates_IndexError from_observations [observation; image] true
           None None None (state (optimizer plain_policy) batch) _ Hsplit Hlen).
Defined.

Lemma get_value_estimates_TypeError_witness :
  value_feed_dict from_observations (w_self (state (wide_head_optimizer plain_policy) batch))
      [observation] None None None = Ok bootstrap_feed
  ∧ run_dict (graph (w_sess (state (wide_head_optimizer plain_policy) batch)))
        bootstrap_feed (value_heads (wide_head_optimizer plain_policy))
    = Ok [("extrinsic", NDArray [1%nat; 2%nat] [1%float; 1%float])]
  ∧ ("extrinsic", NDArray [1%nat; 2%nat] [1%float; 1%float])
      ∈ [("extrinsic", NDArray [1%nat; 2%nat] [1%float; 1%float])]
  ∧ length (data (NDArray [1%nat; 2%nat] [1%float; 1%float])) ≠ 1%nat
  ∧ get_value_estimates from_observations [observation] true None None None
        (state (wide_head_optimizer plain_policy) batch)
    = (Raise TypeError,
       logged (RunRecord
                 (Single (FetchDict (value_heads (wide_head_optimizer plain_policy))))
                 bootstrap_feed)
         (state (wide_head_optimizer plain_policy) batch)).
Proof.
  assert (value_feed_dict from_observations
            (w_self (state (wide_head_optimizer plain_policy) batch))
            [observation] None None None = Ok bootstrap_feed) as Hfeed
    by (vm_compute; reflexivity).
  assert (run_dict (graph (w_sess (state (wide_head_optimizer plain_policy) batch)))
            bootstrap_feed (value_heads (wide_head_optimizer plain_policy))
          = Ok [("extrinsic", NDArray [1%nat; 2%nat] [1%float; 1%float])]) as Hraw
    by (vm_compute; reflexivity).
  assert (("extrinsic", NDArray [1%nat; 2%nat] [1%float; 1%float])
            ∈ [("extrinsic", NDArray [1%nat; 2%nat] [1%float; 1%float])]) as Hin
    by (apply list_elem_of_here).
  assert (length (data (NDArray [1%nat; 2%nat] [1%float; 1%float])) ≠ 1%nat) as Hlen
    by (simpl; lia).
  split; [exact Hfeed|]. split; [exact Hraw|]. split; [exact Hin|]. split; [exact Hlen|].
  exact (get_value_estimates_TypeError from_observations [observation] true
           None None None (state (wide_head_optimizer plain_policy) batch)
           _ _ _ _ Hfeed Hraw Hin Hlen).
Defined.

Lemma get_trajectory_value_estimates_runs_twice_witness :
  get_trajectory_value_estimates from_observations [observation] true
      (state (optimizer plain_policy) batch)
    = (Ok ([("extrinsic", NDArray [10%nat] (replicate 10 0.5%float));
            ("curiosity", NDArray [10%nat] (replicate 10 0.5%float))],
           [("extrinsic", 0%float); ("curiosity", 0.5%float)]),
       (get_trajectory_value_estimates from_observations [observation] true
          (state (optimizer plain_policy) batch)).2)
  ∧ ∃ feed pm vm pa bootstrap_feed,
      (trajectory_feed_dict (optimizer plain_policy)
         (state (optimizer plain_policy) batch)).1 = Ok feed
      ∧ value_feed_dict from_observations (optimizer plain_policy) [observation] pm vm pa
        = Ok bootstrap_feed
      ∧ (get_trajectory_value_estimates from_observations [observation] true
           (state (optimizer plain_policy) batch)).2
        = logged (RunRecord (Single (FetchDict (value_heads (optimizer plain_policy))))
                    bootstrap_feed)
            (logged (RunRecord (batch_fetches (optimizer plain_policy)) feed)
               (state (optimizer plain_policy) batch)).
Proof.
  assert (get_trajectory_value_estimates from_observations [observation] true
            (state (optimizer plain_policy) batch)
          = (Ok ([("extrinsic", NDArray [10%nat] (replicate 10 0.5%float));
                  ("curiosity", NDArray [10%nat] (replicate 10 0.5%float))],
                 [("extrinsic", 0%float); ("curiosity", 0.5%float)]),
             (get_trajectory_value_estimates from_observations [observation] true
                (state (optimizer plain_policy) batch)).2)) as Hrun.
  { apply run_eq. vm_compute. reflexivity. }
  split; [exact Hrun|].
  exact (get_trajectory_value_estimates_runs_twice from_observations [observation] true
           (state (optimizer plain_policy) batch) _ _ _ Hrun).
Defined.

Lemma get_trajectory_value_estimates_feed_error_witness :
  (trajectory_feed_dict (w_self (state (optimizer broken_recurrent_policy) batch))
     (state (optimizer broken_recurrent_policy) batch)).1 = Raise ValueError
  ∧ get_trajectory_value_estimates from_observations [observation] true
        (state (optimizer broken_recurrent_policy) batch)
    = (Raise ValueError, state (optimizer broken_recurrent_policy) batch).
Proof.
  assert ((trajectory_feed_dict (w_self (state (optimizer broken_recurrent_policy) batch))
             (state (optimizer broken_recurrent_policy) batch)).1 = Raise ValueError)
    as Hfeed by (vm_compute; reflexivity).
  split; [exact Hfeed|].
  exact (get_trajectory_value_estimates_feed_error from_observations [observation] true
           (state (optimizer broken_recurrent_policy) batch) _ Hfeed).
Defined.

Lemma get_trajectory_value_estimates_no_actions_witness :
  Policy.use_recurrent
    (policy (w_self (state (optimizer recurrent_policy) batch_without_actions))) = true
  ∧ (trajectory_feed_dict
       (w_self (state (optimizer recurrent_policy) batch_without_actions))
       (state (optimizer recurrent_policy) batch_without_actions)).1
    = Ok recurrent_batch_feed
  ∧ run_dict sample_graph recurrent_batch_feed (value_heads (optimizer recurrent_policy))
    = Ok [("extrinsic", NDArray [10%nat; 1%nat] (replicate 10 2%float));
          ("curiosity", NDArray [10%nat; 1%nat] (replicate 10 2%float))]
  ∧ sample_graph recurrent_batch_feed (ph "recurrent_out")
    = Ok (NDArray [1%nat; 2%nat] [1%float; 1%float])
  ∧ sample_graph recurrent_batch_feed (ph "value_memory_out")
    = Ok (NDArray [1%nat; 2%nat] [3%float; 3%float])
  ∧ dict_get "actions" (buffer_fields batch_without_actions) = Some []
  ∧ get_trajectory_value_estimates from_observations [observation] true
        (state (optimizer recurrent_policy) batch_without_actions)
    = (Raise IndexError,
       logged (RunRecord (batch_fetches (optimizer recurrent_policy)) recurrent_batch_feed)
         (state (optimizer recurrent_policy) batch_without_actions)).
Proof.
  assert (Policy.use_recurrent
            (policy (w_self (state (optimizer recurrent_policy) batch_without_actions)))
          = true) as Hrec by reflexivity.
  assert ((trajectory_feed_dict
             (w_self (state (optimizer recurrent_policy) batch_without_actions))
             (state (optimizer recurrent_policy) batch_without_actions)).1
          = Ok recurrent_batch_feed) as Hfeed by (vm_compute; reflexivity).
  assert (run_dict (graph (w_sess (state (optimizer recurrent_policy) batch_without_actions)))
            recurrent_batch_feed
            (value_heads (w_self (state (optimizer recurrent_policy) batch_without_actions)))
          = Ok [("extrinsic", NDArray [10%nat; 1%nat] (replicate 10 2%float));
                ("curiosity", NDArray [10%nat; 1%nat] (replicate 10 2%float))]) as Hraw
    by (vm_compute; reflexivity).
  assert (graph (w_sess (state (optimizer recurrent_policy) batch_without_actions))
            recurrent_batch_feed
            (Policy.memory_out
               (policy (w_self (state (optimizer recurrent_policy) batch_without_actions))))
          = Ok (NDArray [1%nat; 2%nat] [1%float; 1%float])) as Hp
    by (vm_compute; reflexivity).
  assert (graph (w_sess (state (optimizer recurrent_policy) batch_without_actions))
            recurrent_batch_feed
            (memory_out (w_self (state (optimizer recurrent_policy) batch_without_actions)))
          = Ok (NDArray [1%nat; 2%nat] [3%float; 3%float])) as Hv
    by (vm_compute; reflexivity).
  assert (dict_get "actions"
            (buffer_fields (w_batch (state (optimizer recurrent_policy) batch_without_actions)))
          = Some []) as Hacts by reflexivity.
  split; [exact Hrec|]. split; [exact Hfeed|]. split; [exact Hraw|].
  split; [exact Hp|]. split; [exact Hv|]. split; [exact Hacts|].
  exact (get_trajectory_value_estimates_no_actions from_observations [observation] true
           (state (optimizer recurrent_policy) batch_without_actions)
           _ _ _ _ Hrec Hfeed Hraw Hp Hv Hacts).
Defined.

Lemma get_trajectory_value_estimates_ValueError_witness :
  (trajectory_feed_dict (w_self (state (wide_head_optimizer plain_policy) batch))
     (state (wide_head_optimizer plain_policy) batch)).1 = Ok batch_feed
  ∧ batch_outputs (wide_head_optimizer plain_policy) sample_graph batch_feed batch
    = Ok ([("extrinsic", NDArray [1%nat; 2%nat] [1%float; 1%float])], None, None, None)
  ∧ ("extrinsic", NDArray [1%nat; 2%nat] [1%float; 1%float])
      ∈ [("extrinsic", NDArray [1%nat; 2%nat] [1%float; 1%float])]
  ∧ (∀ d0 rest, shape (NDArray [1%nat; 2%nat] [1%float; 1%float]) ≠ d0 :: 1%nat :: rest)
  ∧ get_trajectory_value_estimates from_observations [observation] true
        (state (wide_head_optimizer plain_policy) batch)
    = (Raise ValueError,
       logged (RunRecord (batch_fetches (wide_head_optimizer plain_policy)) batch_feed)
         (state (wide_head_optimizer plain_policy) batch)).
Proof.
  assert ((trajectory_feed_dict (w_self (state (wide_head_optimizer plain_policy) batch))
             (state (wide_head_optimizer plain_policy) batch)).1 = Ok batch_feed) as Hfeed
    by (vm_compute; reflexivity).
  assert (batch_outputs (w_self (state (wide_head_optimizer plain_policy) batch))
            (graph (w_sess (state (wide_head_optimizer plain_policy) batch)))
            batch_feed (w_batch (state (wide_head_optimizer plain_policy) batch))
          = Ok ([("extrinsic", NDArray [1%nat; 2%nat] [1%float; 1%float])],
                None, None, None)) as Hout by (vm_compute; reflexivity).
  assert (("extrinsic", NDArray [1%nat; 2%nat] [1%float; 1%float])
            ∈ [("extrinsic", NDArray [1%nat; 2%nat] [1%float; 1%float])]) as Hin
    by (apply list_elem_of_here).
  assert (∀ d0 rest,
            shape (NDArray [1%nat; 2%nat] [1%float; 1%float]) ≠ d0 :: 1%nat :: rest)
    as Hshape by (intros d0 rest; simpl; discriminate).
  split; [exact Hfeed|]. split; [exact Hout|]. split; [exact Hin|]. split; [exact Hshape|].
  exact (get_trajectory_value_estimates_ValueError from_observations [observation] true
           (state (wide_head_optimizer plain_policy) batch)
           _ _ _ _ _ _ _ Hfeed Hout Hin Hshape).
Defined.

Lemma get_trajectory_value_estimates_bootstrap_alone_witness :
  Policy.use_recurrent (policy (w_self (state (optimizer plain_policy) batch))) = false
  ∧ get_trajectory_value_estimates from_observations [observation] true
        (state (optimizer plain_policy) batch)
      = (Ok ([("extrinsic", NDArray [10%nat] (replicate 10 0.5%float));
              ("curiosity", NDArray [10%nat] (replicate 10 0.5%float))],
             [("extrinsic", 0%float); ("curiosity", 0.5%float)]),
         (get_trajectory_value_estimates from_observations [observation] true
            (state (optimizer plain_policy) batch)).2)
  ∧ (get_value_estimates from_observations [observation] true None None None
       {| w_self := optimizer plain_policy; w_batch := empty_batch;
          w_sess := used_session |}).1
    = Ok [("extrinsic", 0%float); ("curiosity", 0.5%float)].
Proof.
  assert (Policy.use_recurrent (policy (w_self (state (optimizer plain_policy) batch)))
          = false) as Hrec by reflexivity.
  assert (get_trajectory_value_estimates from_observations [observation] true
            (state (optimizer plain_policy) batch)
          = (Ok ([("extrinsic", NDArray [10%nat] (replicate 10 0.5%float));
                  ("curiosity", NDArray [10%nat] (replicate 10 0.5%float))],
                 [("extrinsic", 0%float); ("curiosity", 0.5%float)]),
             (get_trajectory_value_estimates from_observations [observation] true
                (state (optimizer plain_policy) batch)).2)) as Hrun.
  { apply run_eq. vm_compute. reflexivity. }
  split; [exact Hrec|]. split; [exact Hrun|].
  exact (get_trajectory_value_estimates_bootstrap_alone from_observations [observation]
           true (state (optimizer plain_policy) batch) _ _ _ Hrec Hrun
           {| w_self := optimizer plain_policy; w_batch := empty_batch;
              w_sess := used_session |} eq_refl eq_refl).
Defined.

Lemma get_trajectory_value_estimates_squeezed_witness :
  dict_wf (value_heads (w_self (state (optimizer plain_policy) batch)))
  ∧ get_trajectory_value_estimates from_observations [observation] true
        (state (optimizer plain_policy) batch)
      = (Ok ([("extrinsic", NDArray [10%nat] (replicate 10 0.5%float));
              ("curiosity", NDArray [10%nat] (replicate 10 0.5%float))],
             [("extrinsic", 0%float); ("curiosity", 0.5%float)]),
         (get_trajectory_value_estimates from_observations [observation] true
            (state (optimizer plain_policy) batch)).2)
  ∧ ∃ feed,
      (trajectory_feed_dict (optimizer plain_policy)
         (state (optimizer plain_policy) batch)).1 = Ok feed
      ∧ Forall2 (λ head entry,
                   head.1 = entry.1
                   ∧ ∃ v, sample_graph feed head.2 = Ok v
                          ∧ ∃ d0 rest, shape v = d0 :: 1%nat :: rest
                                       ∧ entry.2 = NDArray (d0 :: rest) (data v))
          (value_heads (optimizer plain_policy))
          [("extrinsic", NDArray [10%nat] (replicate 10 0.5%float));
           ("curiosity", NDArray [10%nat] (replicate 10 0.5%float))].
Proof.
  assert (dict_wf (value_heads (w_self (state (optimizer plain_policy) batch)))) as Hwf.
  { apply (bool_decide_unpack _). vm_compute. exact I. }
  assert (get_trajectory_value_estimates from_observations [observation] true
            (state (optimizer plain_policy) batch)
          = (Ok ([("extrinsic", NDArray [10%nat] (replicate 10 0.5%float));
                  ("curiosity", NDArray [10%nat] (replicate 10 0.5%float))],
                 [("extrinsic", 0%float); ("curiosity", 0.5%float)]),
             (get_trajectory_value_estimates from_observations [observation] true
                (state (optimizer plain_policy) batch)).2)) as Hrun.
  { apply run_eq. vm_compute. reflexivity. }
  split; [exact Hwf|]. split; [exact Hrun|].
  exact (get_trajectory_value_estimates_squeezed from_observations [observation] true
           (state (optimizer plain_policy) batch) _ _ _ Hwf Hrun).
Defined.

Lemma trajectory_feed_dict_zero_memory_witness :
  Policy.use_recurrent (policy (optimizer recurrent_policy)) = true
  ∧ (trajectory_feed_dict (optimizer recurrent_policy)
       (state (optimizer recurrent_policy) batch)).1 = Ok recurrent_batch_feed
  ∧ Policy.prev_action (policy (optimizer recurrent_policy))
      ≠ memory_in (optimizer recurrent_policy)
  ∧ dict_get (ph "value_memory_in") recurrent_batch_feed
    = Some (FList [NDArray [2%nat] [0%float; 0%float]]).
Proof.
  assert (Policy.use_recurrent (policy (optimizer recurrent_policy)) = true) as Hrec
    by reflexivity.
  assert ((trajectory_feed_dict (optimizer recurrent_policy)
             (state (optimizer recurrent_policy) batch)).1 = Ok recurrent_batch_feed)
    as Hfeed by (vm_compute; reflexivity).
  assert (Policy.prev_action (policy (optimizer recurrent_policy))
            ≠ memory_in (optimizer recurrent_policy)) as Hne by (simpl; discriminate).
  split; [exact Hrec|]. split; [exact Hfeed|]. split; [exact Hne|].
  destruct (trajectory_feed_dict_zero_memory (optimizer recurrent_policy)
              (state (optimizer recurrent_policy) batch) recurrent_batch_feed Hrec Hfeed)
    as (_ & _ & Hvalue & _).
  exact (Hvalue (or_intror Hne)).
Defined.
End more_instances.

Section wiring_more_instances.
Import Scenario.

Lemma create_reward_signals_partial_witness :
  dict_wf [("curiosity", 1)]
  ∧ Forall (λ item : string * Z,
              ∃ s, create_reward_signal (policy (constructed plain_policy))
                     item.1 item.2 = Ok s) [("curiosity", 1)]
  ∧ create_reward_signal (policy (constructed plain_policy)) "unknown" 1
    = Raise (RuntimeError "Unknown reward signal type")
  ∧ ∃ self',
      create_reward_signals create_reward_signal
          ([("curiosity", 1)] ++ ("unknown", 1) :: [("gail", 1)])
          (constructed plain_policy)
        = (Raise (RuntimeError "Unknown reward signal type"), self')
      ∧ dict_keys (reward_signals self') = dict_keys [("curiosity", 1)].
Proof.
  assert (dict_wf [("curiosity", 1)]) as Hwf.
  { apply (bool_decide_unpack _). vm_compute. exact I. }
  assert (Forall (λ item : string * Z,
                    ∃ s, create_reward_signal (policy (constructed plain_policy))
                           item.1 item.2 = Ok s) [("curiosity", 1)]) as Hpre.
  { constructor; [|constructor]. exists curiosity_signal. reflexivity. }
  assert (create_reward_signal (policy (constructed plain_policy)) "unknown" 1
          = Raise (RuntimeError "Unknown reward signal type")) as Hfail by reflexivity.
  split; [exact Hwf|]. split; [exact Hpre|]. split; [exact Hfail|].
  destruct (create_reward_signals_partial create_reward_signal
              [("curiosity", 1)] [("gail", 1)] "unknown" 1 (constructed plain_policy)
              _ Hwf Hpre Hfail) as (self' & Hrun & Hkeys & _).
  exists self'. split; [exact Hrun | exact Hkeys].
Defined.

Lemma TFOptimizer_init_result_witness :
  dict_get "reward_signals" (trainer_params ["extrinsic"; "curiosity"])
    = Some (ParamConfigs [("extrinsic", 1); ("curiosity", 1)])
  ∧ dict_wf [("extrinsic", 1); ("curiosity", 1)]
  ∧ TFOptimizer_init create_reward_signal (Some plain_policy)
        (trainer_params ["extrinsic"; "curiosity"])
      = Ok (constructed plain_policy)
  ∧ value_heads (constructed plain_policy) = []
  ∧ dict_keys (reward_signals (constructed plain_policy))
    = dict_keys [("extrinsic", 1); ("curiosity", 1)]
  ∧ ∀ k, k ∈ dict_keys (update_dict (constructed plain_policy)) ↔
         ∃ name s, (name, s) ∈ reward_signals (constructed plain_policy)
                   ∧ k ∈ dict_keys (RewardSignal.update_dict s).
Proof.
  assert (dict_get "reward_signals" (trainer_params ["extrinsic"; "curiosity"])
          = Some (ParamConfigs [("extrinsic", 1); ("curiosity", 1)])) as Hparam
    by reflexivity.
  assert (dict_wf [("extrinsic", 1); ("curiosity", 1)]) as Hwf.
  { apply (bool_decide_unpack _). vm_compute. exact I. }
  assert (TFOptimizer_init create_reward_signal (Some plain_policy)
            (trainer_params ["extrinsic"; "curiosity"])
          = Ok (constructed plain_policy)) as Hinit by (vm_compute; reflexivity).
  split; [exact Hparam|]. split; [exact Hwf|]. split; [exact Hinit|].
  destruct (TFOptimizer_init_result create_reward_signal plain_policy
              (trainer_params ["extrinsic"; "curiosity"])
              [("extrinsic", 1); ("curiosity", 1)] (constructed plain_policy)
              Hparam Hwf Hinit) as (_ & Hheads & _ & _ & _ & Hkeys & _ & Hud).
  split; [exact Hheads|]. split; [exact Hkeys | exact Hud].
Defined.

Lemma TFOptimizer_init_errors_witness :
  dict_get "reward_signals" [("batch_size", ParamOther (config:=Z) "1024")] = None
  ∧ TFOptimizer_init create_reward_signal (Some plain_policy)
        [("batch_size", ParamOther "1024")]
    = Raise (KeyError "reward_signals")
  ∧ dict_get "reward_signals" (trainer_params ["curiosity"; "unknown"; "gail"])
    = Some (ParamConfigs ([("curiosity", 1)] ++ ("unknown", 1) :: [("gail", 1)]))
  ∧ dict_wf [("curiosity", 1)]
  ∧ Forall (λ item : string * Z,
              ∃ s, create_reward_signal plain_policy item.1 item.2 = Ok s)
      [("curiosity", 1)]
  ∧ create_reward_signal plain_policy "unknown" 1
    = Raise (RuntimeError "Unknown reward signal type")
  ∧ TFOptimizer_init create_reward_signal (Some plain_policy)
        (trainer_params ["curiosity"; "unknown"; "gail"])
    = Raise (RuntimeError "Unknown reward signal type").
Proof.
  assert (dict_get "reward_signals" [("batch_size", ParamOther (config:=Z) "1024")] = None)
    as Hnone by reflexivity.
  assert (dict_get "reward_signals" (trainer_params ["curiosity"; "unknown"; "gail"])
          = Some (ParamConfigs ([("curiosity", 1)] ++ ("unknown", 1) :: [("gail", 1)])))
    as Hparam by reflexivity.
  assert (dict_wf [("curiosity", 1)]) as Hwf.
  { apply (bool_decide_unpack _). vm_compute. exact I. }
  assert (Forall (λ item : string * Z,
                    ∃ s, create_reward_signal plain_policy item.1 item.2 = Ok s)
            [("curiosity", 1)]) as Hpre.
  { constructor; [|constructor]. exists curiosity_signal. reflexivity. }
  assert (create_reward_signal plain_policy "unknown" 1
          = Raise (RuntimeError "Unknown reward signal type")) as Hfail by reflexivity.
  split; [exact Hnone|].
  split; [exact (proj1 (TFOptimizer_init_errors create_reward_signal plain_policy
                          [("batch_size", ParamOther "1024")]) Hnone)|].
  split; [exact Hparam|]. split; [exact Hwf|]. split; [exact Hpre|]. split; [exact Hfail|].
  exact (proj2 (TFOptimizer_init_errors create_reward_signal plain_policy
                  (trainer_params ["curiosity"; "unknown"; "gail"]))
           [("curiosity", 1)] "unknown" 1 [("gail", 1)] _ Hparam Hwf Hpre Hfail).
Defined.

Lemma make_zero_mem_bounds_witness :
  0 < Policy.sequence_length (policy (w_self (state (optimizer plain_policy) batch)))
  ∧ _make_zero_mem (-1) 0 (state (optimizer plain_policy) batch)
    = (Ok [], state (optimizer plain_policy) batch)
  ∧ _make_zero_mem (-1) 24 (state (optimizer plain_policy) batch)
    = (Raise ValueError, state (optimizer plain_policy) batch).
Proof.
  assert (0 < Policy.sequence_length
                (policy (w_self (state (optimizer plain_policy) batch)))) as Hstep
    by (simpl; lia).
  split; [exact Hstep|]. split.
  - destruct (make_zero_mem_bounds (-1) 0 (state (optimizer plain_policy) batch))
      as (_ & _ & Hempty & _).
    exact (Hempty Hstep ltac:(lia)).
  - destruct (make_zero_mem_bounds (-1) 24 (state (optimizer plain_policy) batch))
      as (_ & _ & _ & _ & Hneg).
    exact (Hneg Hstep ltac:(lia) ltac:(lia)).
Defined.

Lemma execute_model_outcome_witness :
  Forall (λ kt : string * handle, ∃ v, sample_graph bootstrap_feed kt.2 = Ok v)
    [("value", ph "extrinsic_value"); ("memory", ph "recurrent_out")]
  ∧ (∃ run_out,
       (_execute_model bootstrap_feed
          [("value", ph "extrinsic_value"); ("memory", ph "recurrent_out")]
          (state (optimizer recurrent_policy) batch)).1 = Ok run_out)
  ∧ (_execute_model bootstrap_feed
       [("value", ph "extrinsic_value"); ("memory", ph "recurrent_out")]
       (state (optimizer recurrent_policy) batch)).2
    = logged (RunRecord
                (Several (map FetchTensor
                   (dict_values [("value", ph "extrinsic_value");
                                 ("memory", ph "recurrent_out")])))
                bootstrap_feed)
        (state (optimizer recurrent_policy) batch).
Proof.
  assert (Forall (λ kt : string * handle,
                    ∃ v, graph (w_sess (state (optimizer recurrent_policy) batch))
                           bootstrap_feed kt.2 = Ok v)
            [("value", ph "extrinsic_value"); ("memory", ph "recurrent_out")]) as Hall.
  { constructor; [|constructor; [|constructor]].
    - exists (NDArray [1%nat; 1%nat] [0.5%float]). vm_compute. reflexivity.
    - exists (NDArray [1%nat; 2%nat] [1%float; 1%float]). vm_compute. reflexivity. }
  destruct (execute_model_outcome bootstrap_feed
              [("value", ph "extrinsic_value"); ("memory", ph "recurrent_out")]
              (state (optimizer recurrent_policy) batch)) as (Hstate & Hiff).
  split; [exact Hall|]. split; [exact (proj2 Hiff Hall) | exact Hstate].
Defined.
End wiring_more_instances.
